(** * Generation dispatch and admission core of the LLM API backend

    A shallow embedding of
      - [backend/app/services/rate_limit_service.py]  (module [RateLimit]),
      - [backend/app/services/llm_service.py]         (module [LLM]),
      - [backend/app/services/analytics_service.py]   (module [Analytics]),
      - the [/api/v1/generate] endpoint of [backend/app/main.py] (module [Main]),
      - the API keys of [backend/app/services/auth_service.py] and the
        dependency [get_current_user] of [backend/app/main.py] (module [Auth]),
      - the endpoint of [backend/app/main-deploy.py]  (module [Deploy]),
      - [backend/app/services/billing_service.py]     (module [Billing]),
    together with the properties of the specification that concern them.

    Conventions of the embedding.
      - Python [int] is [Z]; [a // b] is [Z.div] (both round towards minus
        infinity) and raises [ZeroDivisionError] when [b = 0].
      - Python [str] is [string], a sequence of 8-bit characters: it stands
        for the strings whose characters are all ASCII ([is_ascii]), where
        a character is a code point; only ASCII letters change case.
      - A method that mutates [self] and may raise is a function
        [S -> result A * S]: the state reached is returned also when an
        exception escapes, as the mutations made before a [raise] persist.
      - Whatever the process reads from outside (the clock, the file system,
        the optional libraries, the model back ends, the data base) is an
        explicit argument: a clock reading, or a field of an environment
        record. *)

From Stdlib Require Import ZArith QArith String Ascii List Lia.
From stdpp Require Import base option list gmap strings pretty.

Open Scope Z_scope.
Open Scope string_scope.

(** ** Exceptions and the state-and-exception monad *)

Inductive exn : Type :=
  | RuntimeError (msg : string)
  | ValueError (msg : string)
  | AssertionError
  | AttributeError (msg : string)
  | ZeroDivisionError
  | KeyError (key : string)
  | OverflowError (msg : string)
  | OSError (msg : string)
  | ExternalError (msg : string)
      (* any exception raised by a collaborator: a back end, the data base *)
  | HTTPException (status_code : Z) (detail : string).

(** [str(e)], as the f-strings of the log messages print it. *)
Definition str_exn (e : exn) : string :=
  match e with
  | RuntimeError m | ValueError m | AttributeError m | OverflowError m
  | OSError m | ExternalError m => m
  | KeyError k => "'" ++ k ++ "'"
  | AssertionError => ""
  | ZeroDivisionError => "integer division or modulo by zero"
  | HTTPException _ d => d
  end.

Inductive result (A : Type) : Type :=
  | Ok (a : A)
  | Raise (e : exn).
Arguments Ok {A} a.
Arguments Raise {A} e.

Definition M (S A : Type) : Type := S -> result A * S.

Definition ret {S A} (a : A) : M S A := fun s => (Ok a, s).
Definition raise {S A} (e : exn) : M S A := fun s => (Raise e, s).
Definition bind {S A B} (c : M S A) (k : A -> M S B) : M S B :=
  fun s => match c s with
           | (Ok a, s') => k a s'
           | (Raise e, s') => (Raise e, s')
           end.
Definition get {S} : M S S := fun s => (Ok s, s).
Definition modify {S} (f : S -> S) : M S unit := fun s => (Ok tt, f s).

(** [try: c except Exception as e: h e] *)
Definition try_except {S A} (c : M S A) (h : exn -> M S A) : M S A :=
  fun s => match c s with
           | (Ok a, s') => (Ok a, s')
           | (Raise e, s') => h e s'
           end.

Declare Scope py_scope.
Delimit Scope py_scope with py.
Notation "x <- c ;; k" := (bind c (fun x => k))
  (at level 100, c at next level, right associativity) : py_scope.
Notation "c ;;; k" := (bind c (fun _ => k))
  (at level 100, right associativity) : py_scope.

(** Lifting a computation on a component of a larger state. *)
Definition zoom {S T A} (proj : S -> T) (inj : T -> S -> S) (c : M T A) : M S A :=
  fun s => let '(r, t') := c (proj s) in (r, inj t' s).

(** ** rate_limit_service.py *)

Module RateLimit.

(** The per-key dictionary [{'window_start': int, 'count': int}]. *)
Record Entry : Type := mkEntry { window_start : Z; count : Z }.

Record RateLimitService : Type := mkService {
  default_requests : Z;
  default_window : Z;
  _counters : gmap string Entry
}.

Definition set_counters (c : gmap string Entry) (self : RateLimitService) :=
  {| default_requests := default_requests self;
     default_window := default_window self;
     _counters := c |}.

(** [RateLimitService.__init__], from the two settings it reads. *)
Definition init (rate_limit_requests rate_limit_window : Z) : RateLimitService :=
  {| default_requests := rate_limit_requests;
     default_window := rate_limit_window;
     _counters := ∅ |}.

(** The dictionary returned next to the flag. The ['reset'] entry is kept as
    the timestamp [reset_ts] that the code renders with
    [datetime.fromtimestamp(reset_ts).isoformat()]. *)
Record Info : Type := mkInfo {
  limit : Z;
  remaining : Z;
  reset : Z;
  window : Z
}.

(** [now] is the reading [int(time.time())]. *)
Definition _get_window_start (now window : Z) : result Z :=
  if decide (window = 0) then Raise ZeroDivisionError
  else Ok ((now / window) * window).

(** What [datetime.fromtimestamp] raises when it is given an integer: a
    [ValueError] for a year outside of 1 to 9999, an [OverflowError] for a
    timestamp outside of the platform's [time_t], an [OSError] when the
    platform's [localtime] fails. *)
Inductive datetime_error : Type :=
  | year_out_of_range (msg : string)
  | timestamp_out_of_range (msg : string)
  | localtime_failed (msg : string).

Definition exn_of (d : datetime_error) : exn :=
  match d with
  | year_out_of_range m => ValueError m
  | timestamp_out_of_range m => OverflowError m
  | localtime_failed m => OSError m
  end.

(** [fromtimestamp ts] is the error of [datetime.fromtimestamp(ts)], if it
    raises one: the years that [datetime] covers and the local time zone
    are those of the platform. *)
Definition check_rate_limit (fromtimestamp : Z -> option datetime_error)
    (identifier : string) (requests window : option Z)
    (now : Z) : M RateLimitService (bool * Info) := fun self =>
  let requests := default (default_requests self) requests in
  let window := default (default_window self) window in
  match _get_window_start now window with
  | Raise e => (Raise e, self)
  | Ok window_start0 =>
    let '(entry, self) :=
      match _counters self !! identifier with
      | Some entry =>
          if decide (window_start entry = window_start0) then (entry, self)
          else
            let fresh := {| window_start := window_start0; count := 0 |} in
            (fresh, set_counters (<[identifier := fresh]> (_counters self)) self)
      | None =>
          let fresh := {| window_start := window_start0; count := 0 |} in
          (fresh, set_counters (<[identifier := fresh]> (_counters self)) self)
      end in
    if decide (requests <= count entry) then
      let reset_ts := window_start0 + window in
      match fromtimestamp reset_ts with
      | Some d => (Raise (exn_of d), self)
      | None =>
          (Ok (false, {| limit := requests; remaining := 0;
                         reset := reset_ts; window := window |}), self)
      end
    else
      (* entry['count'] += 1 updates the dictionary held in _counters *)
      let entry := {| window_start := window_start entry;
                      count := count entry + 1 |} in
      let self := set_counters (<[identifier := entry]> (_counters self)) self in
      let remaining := Z.max 0 (requests - count entry) in
      let reset_ts := window_start0 + window in
      match fromtimestamp reset_ts with
      | Some d => (Raise (exn_of d), self)
      | None =>
          (Ok (true, {| limit := requests; remaining := remaining;
                        reset := reset_ts; window := window |}), self)
      end
  end.

(** The [detail] dictionary and the headers of the 429 answer are built from
    [info]; the model keeps the status code and the error text. *)
Definition enforce_rate_limit (fromtimestamp : Z -> option datetime_error)
    (identifier : string) (requests window : option Z)
    (now : Z) : M RateLimitService Info :=
  (r <- check_rate_limit fromtimestamp identifier requests window now ;;
   let '(is_allowed, info) := r in
   if negb is_allowed then raise (HTTPException 429 "Rate limit exceeded")
   else ret info)%py.

(** Successive calls for one identity, one per clock reading. *)
Fixpoint check_all (fromtimestamp : Z -> option datetime_error)
    (identifier : string) (requests window : option Z) (nows : list Z)
    (self : RateLimitService)
    : list (result (bool * Info)) * RateLimitService :=
  match nows with
  | [] => ([], self)
  | now :: nows =>
      let '(r, self) :=
        check_rate_limit fromtimestamp identifier requests window now self in
      let '(rs, self) :=
        check_all fromtimestamp identifier requests window nows self in
      (r :: rs, self)
  end.

(** The states the service can be in: those reached from [__init__] by
    calls of [check_rate_limit]. *)
Inductive reachable : RateLimitService -> Prop :=
  | reachable_init rq w : reachable (init rq w)
  | reachable_check fromtimestamp self identifier requests window now :
      reachable self ->
      reachable
        (snd (check_rate_limit fromtimestamp identifier requests window now self)).

(** The year of the Gregorian calendar a timestamp falls in, in UTC. *)
Definition year_of (ts : Z) : Z :=
  let z := ts / 86400 + 719468 in
  let era := z / 146097 in
  let doe := z - era * 146097 in
  let yoe := (doe - doe / 1460 + doe / 36524 - doe / 146096) / 365 in
  let doy := doe - (365 * yoe + yoe / 4 - yoe / 100) in
  let mp := (5 * doy + 2) / 153 in
  yoe + era * 400 + (if decide (10 <= mp) then 1 else 0).

(** A platform: CPython 3.11 on Linux with a 64-bit [time_t], in UTC.
    [datetime] covers the years 1 to 9999, less the first day, as the local
    time of the day before is looked at too. Past them the error names the
    year, which the platform keeps in 32 bits. *)
Definition utc (ts : Z) : option datetime_error :=
  if decide (-62135510400 <= ts <= 253402300799) then None
  else if decide (- 2 ^ 63 <= ts < 2 ^ 63) then
    let y := year_of ts in
    if decide (- 2 ^ 31 + 1900 <= y <= 2 ^ 31 + 1899) then
      let shown :=
        if decide (ts < 0) then Z.min y 0
        else (y + 2 ^ 31) mod 2 ^ 32 - 2 ^ 31 in
      Some (year_out_of_range ("year " ++ pretty shown ++ " is out of range"))
    else
      Some (localtime_failed "[Errno 75] Value too large for defined data type")
  else
    Some (timestamp_out_of_range "timestamp out of range for platform time_t").

End RateLimit.

(** ** Python strings *)

Definition lower_ascii (c : ascii) : ascii :=
  let n := nat_of_ascii c in
  if (Nat.leb 65 n && Nat.leb n 90)%bool then ascii_of_nat (n + 32) else c.

(** The strings of the model are sequences of 8-bit characters. They stand
    for the Python strings whose characters are all ASCII: there a character
    is a code point, and white space is what [is_space] says. *)
Fixpoint is_ascii (s : string) : bool :=
  match s with
  | EmptyString => true
  | String c s => Nat.ltb (nat_of_ascii c) 128 && is_ascii s
  end.

(** [str.lower()] *)
Fixpoint lower (s : string) : string :=
  match s with
  | EmptyString => EmptyString
  | String c s => String (lower_ascii c) (lower s)
  end.

(** The characters [str.strip()] removes, among the first 128. *)
Definition is_space (c : ascii) : bool :=
  let n := nat_of_ascii c in
  ((Nat.leb 9 n && Nat.leb n 13) || (Nat.leb 28 n && Nat.leb n 32))%bool.

Fixpoint lstrip (s : string) : string :=
  match s with
  | EmptyString => EmptyString
  | String c s' => if is_space c then lstrip s' else s
  end.

Fixpoint rstrip (s : string) : string :=
  match s with
  | EmptyString => EmptyString
  | String c s' =>
      match rstrip s' with
      | EmptyString => if is_space c then EmptyString else String c EmptyString
      | t => String c t
      end
  end.

(** [str.strip()] *)
Definition strip (s : string) : string := rstrip (lstrip s).

(** [s[n:]] *)
Fixpoint slice_from (n : nat) (s : string) : string :=
  match n, s with
  | O, _ => s
  | S n, String _ s => slice_from n s
  | S _, EmptyString => EmptyString
  end.

(** [os.path.basename]: what follows the last slash. *)
Fixpoint basename (s : string) : string :=
  match s with
  | EmptyString => EmptyString
  | String c s' =>
      if existsb (Ascii.eqb "/"%char) (list_ascii_of_string s') then basename s'
      else if Ascii.eqb c "/"%char then s' else s
  end.

(** [o or d] for an optional string: [None] and [""] are both falsy. *)
Definition str_or (o : option string) (d : string) : string :=
  match o with
  | Some s => if decide (s = "") then d else s
  | None => d
  end.

(** Truthiness of an optional string. *)
Definition truthy (o : option string) : bool :=
  match o with
  | Some s => if decide (s = "") then false else true
  | None => false
  end.

(** [int(x)] of a float, on the rational it denotes: truncation towards 0. *)
Definition int_of_Q (x : Q) : Z := Z.quot (Qnum x) (Zpos (Qden x)).

(** ** Logging *)

Inductive level : Type := INFO | WARNING | ERROR.
Definition LogRecord : Type := (level * string)%type.

(** ** config.py: the settings the core reads *)

Record Settings : Type := mkSettings {
  llm_provider : string;
  llm_model : string;
  llm_model_path : option string;
  openai_api_key : option string;
  anthropic_api_key : option string;
  rate_limit_requests : Z;
  rate_limit_window : Z;
  price_per_1k_tokens : Q
}.

(** The defaults of [class Settings]. *)
Definition default_settings : Settings :=
  {| llm_provider := "llamacpp";
     llm_model := "meta-llama/Llama-2-7b-chat-hf";
     llm_model_path := Some "models/TinyLlama-1.1B-Chat-v1.0.Q4_K_M.gguf";
     openai_api_key := None;
     anthropic_api_key := None;
     rate_limit_requests := 100;
     rate_limit_window := 3600;
     price_per_1k_tokens := 0 |}.

Definition with_provider (p : string) (s : Settings) : Settings :=
  {| llm_provider := p;
     llm_model := llm_model s;
     llm_model_path := llm_model_path s;
     openai_api_key := openai_api_key s;
     anthropic_api_key := anthropic_api_key s;
     rate_limit_requests := rate_limit_requests s;
     rate_limit_window := rate_limit_window s;
     price_per_1k_tokens := price_per_1k_tokens s |}.

Definition with_price (p : Q) (s : Settings) : Settings :=
  {| llm_provider := llm_provider s;
     llm_model := llm_model s;
     llm_model_path := llm_model_path s;
     openai_api_key := openai_api_key s;
     anthropic_api_key := anthropic_api_key s;
     rate_limit_requests := rate_limit_requests s;
     rate_limit_window := rate_limit_window s;
     price_per_1k_tokens := p |}.

(** ** llm_service.py *)

Module LLM.

Record GenerationRequest : Type := mkRequest {
  prompt : string;
  max_tokens : Z;
  temperature : Q;
  top_p : Q;
  model : string;
  stop_sequences : option (list string)
}.

Record GenerationResponse : Type := mkResponse {
  text : string;
  input_tokens : Z;
  output_tokens : Z;
  total_tokens : Z;
  model_used : string;
  provider : string;
  response_time_ms : Z;
  cost : Q
}.

(** [response.response_time_ms = v] and [response.cost = v] *)
Definition set_response_time_ms (v : Z) (r : GenerationResponse) :=
  {| text := text r; input_tokens := input_tokens r;
     output_tokens := output_tokens r; total_tokens := total_tokens r;
     model_used := model_used r; provider := provider r;
     response_time_ms := v; cost := cost r |}.
Definition set_cost (v : Q) (r : GenerationResponse) :=
  {| text := text r; input_tokens := input_tokens r;
     output_tokens := output_tokens r; total_tokens := total_tokens r;
     model_used := model_used r; provider := provider r;
     response_time_ms := response_time_ms r; cost := v |}.

(** What the hosted chat APIs answer: the text of the first choice and the
    [usage] block. *)
Record OpenAIResponse : Type := mkOpenAI {
  content : string;
  prompt_tokens : Z;
  completion_tokens : Z;
  usage_total_tokens : Z
}.
Record AnthropicResponse : Type := mkAnthropic {
  content_text : string;
  usage_input_tokens : Z;
  usage_output_tokens : Z
}.

(** The world outside the service: which optional imports succeeded, the
    file system, and the behaviour of each back end. A back end is given
    the request, of which it reads the fields the call passes. *)
Record Env : Type := mkEnv {
  transformers_imported : bool;  (* torch, AutoTokenizer, ..., pipeline *)
  openai_imported : bool;
  anthropic_imported : bool;
  llama_cpp_imported : bool;
  path_exists : string -> bool;                     (* os.path.exists *)
  (* transformers: the three from_pretrained / pipeline constructions *)
  hf_load : string -> option exn;
  hf_input_ids : string -> result nat;              (* inputs.input_ids.shape[1] *)
  hf_pipe : GenerationRequest -> result string;     (* outputs[0]["generated_text"] *)
  hf_encode : string -> result nat;                 (* len(tokenizer.encode(..)) *)
  (* llama_cpp *)
  Llama : string -> option exn;                     (* the constructor *)
  llama_tokenize : string -> result nat;            (* len(llm.tokenize(..)) *)
  llama_call : GenerationRequest -> result string;  (* result["choices"][0]["text"] *)
  (* hosted providers *)
  openai_create : GenerationRequest -> result OpenAIResponse;
  Anthropic : option string -> option exn;          (* the constructor *)
  anthropic_create : GenerationRequest -> result AnthropicResponse
}.

(** The attributes of an [LLMService], the [openai.api_key] it sets, and
    the records its module logger has emitted, oldest first. A loaded
    object is named by what it was loaded from. *)
Record LLMService : Type := mkLLM {
  models : gmap string string;
  tokenizers : gmap string string;
  pipelines : gmap string string;
  llamacpp_model : option string;
  anthropic_client : option string;   (* absent until _initialize_anthropic *)
  openai_module_api_key : option string;
  log : list LogRecord
}.

Definition logger (l : level) (msg : string) : M LLMService unit :=
  modify (fun self =>
    {| models := models self; tokenizers := tokenizers self;
       pipelines := pipelines self; llamacpp_model := llamacpp_model self;
       anthropic_client := anthropic_client self;
       openai_module_api_key := openai_module_api_key self;
       log := (log self ++ [(l, msg)])%list |}).

Definition set_huggingface (name : string) : M LLMService unit :=
  modify (fun self =>
    {| models := <["default" := name]> (models self);
       tokenizers := <["default" := name]> (tokenizers self);
       pipelines := <["default" := name]> (pipelines self);
       llamacpp_model := llamacpp_model self;
       anthropic_client := anthropic_client self;
       openai_module_api_key := openai_module_api_key self;
       log := log self |}).

Definition set_llamacpp_model (m : option string) : M LLMService unit :=
  modify (fun self =>
    {| models := models self; tokenizers := tokenizers self;
       pipelines := pipelines self; llamacpp_model := m;
       anthropic_client := anthropic_client self;
       openai_module_api_key := openai_module_api_key self;
       log := log self |}).

Definition set_anthropic_client (k : option string) : M LLMService unit :=
  modify (fun self =>
    {| models := models self; tokenizers := tokenizers self;
       pipelines := pipelines self; llamacpp_model := llamacpp_model self;
       anthropic_client := k;
       openai_module_api_key := openai_module_api_key self;
       log := log self |}).

Definition set_openai_api_key (k : option string) : M LLMService unit :=
  modify (fun self =>
    {| models := models self; tokenizers := tokenizers self;
       pipelines := pipelines self; llamacpp_model := llamacpp_model self;
       anthropic_client := anthropic_client self;
       openai_module_api_key := k;
       log := log self |}).

(** An external call: its outcome is the environment's. *)
Definition external {A} (r : result A) : M LLMService A := fun self => (r, self).
Definition construct (o : option exn) : M LLMService unit :=
  match o with Some e => raise e | None => ret tt end.

Section Service.
Variable env : Env.
Variable settings : Settings.

Definition _load_huggingface_model : M LLMService unit :=
  (if negb (transformers_imported env) then
     raise (RuntimeError
       "transformers/torch not installed. Install them or switch to llama.cpp.")
   else
     try_except
       (logger INFO ("Loading Hugging Face model: " ++ llm_model settings) ;;;
        construct (hf_load env (llm_model settings)) ;;;
        set_huggingface (llm_model settings) ;;;
        logger INFO "Hugging Face model loaded successfully")
       (fun e =>
          logger ERROR ("Failed to load Hugging Face model: " ++ str_exn e) ;;;
          raise e))%py.

Definition _load_llamacpp_model : M LLMService unit :=
  (if negb (llama_cpp_imported env) then
     raise (RuntimeError
       "llama-cpp-python not installed. pip install llama-cpp-python")
   else
     let model_path := llm_model_path settings in
     if (negb (truthy model_path)
         || negb (path_exists env (default "" model_path)))%bool then
       raise (RuntimeError
         ("llama.cpp model file not found at '" ++ default "None" model_path
          ++ "'. Download a GGUF model and set LLM_MODEL_PATH."))
     else
       let model_path := default "" model_path in
       logger INFO ("Loading llama.cpp model from: " ++ model_path) ;;;
       construct (Llama env model_path) ;;;
       set_llamacpp_model (Some model_path) ;;;
       logger INFO "llama.cpp model loaded successfully")%py.

Definition _initialize_openai : M LLMService unit :=
  (if negb (openai_imported env) then
     raise (RuntimeError
       "openai package not installed. Install it or use llama.cpp for free setup.")
   else if negb (truthy (openai_api_key settings)) then
     raise (ValueError "OpenAI API key not configured")
   else
     set_openai_api_key (openai_api_key settings) ;;;
     logger INFO "OpenAI client initialized")%py.

Definition _initialize_anthropic : M LLMService unit :=
  (if negb (anthropic_imported env) then
     raise (RuntimeError
       "anthropic package not installed. Install it or use llama.cpp for free setup.")
   else if negb (truthy (anthropic_api_key settings)) then
     raise (ValueError "Anthropic API key not configured")
   else
     construct (Anthropic env (anthropic_api_key settings)) ;;;
     set_anthropic_client (anthropic_api_key settings) ;;;
     logger INFO "Anthropic client initialized")%py.

Definition is_llamacpp_name (provider : string) : bool :=
  bool_decide (provider = "llamacpp") || bool_decide (provider = "llama.cpp")
  || bool_decide (provider = "llama-cpp").

Definition _initialize_models : M LLMService unit :=
  try_except
    (let provider := lower (llm_provider settings) in
     if decide (provider = "huggingface") then _load_huggingface_model
     else if decide (provider = "openai") then _initialize_openai
     else if decide (provider = "anthropic") then _initialize_anthropic
     else if is_llamacpp_name provider then _load_llamacpp_model
     else
       logger WARNING ("Unknown LLM provider '" ++ llm_provider settings
                       ++ "', defaulting to llama.cpp") ;;;
       _load_llamacpp_model)%py
    (fun e => logger ERROR ("Failed to initialize LLM service: " ++ str_exn e)).

(** [LLMService.__init__], on a process that has logged [log0] so far. *)
Definition empty_service (log0 : list LogRecord) : LLMService :=
  {| models := ∅; tokenizers := ∅; pipelines := ∅;
     llamacpp_model := None; anthropic_client := None;
     openai_module_api_key := None; log := log0 |}.

Definition init : result unit * LLMService :=
  _initialize_models (empty_service []).

Definition _generate_huggingface (request : GenerationRequest)
    : M LLMService GenerationResponse :=
  (if negb (transformers_imported env) then
     raise (RuntimeError "transformers/torch not installed.")
   else
     self <- get ;;
     match pipelines self !! "default" with
     | None => raise (ValueError "Hugging Face model not loaded")
     | Some pipe =>
       match tokenizers self !! "default" with
       | None => raise (KeyError "default")
       | Some tokenizer =>
         input_tokens <- external (hf_input_ids env (prompt request)) ;;
         let input_tokens := Z.of_nat input_tokens in
         generated_text <- external (hf_pipe env request) ;;
         let output_text :=
           slice_from (String.length (prompt request)) generated_text in
         output_tokens <- external (hf_encode env output_text) ;;
         let output_tokens := Z.of_nat output_tokens in
         let total_tokens := input_tokens + output_tokens in
         ret {| text := strip output_text;
                input_tokens := input_tokens;
                output_tokens := output_tokens;
                total_tokens := total_tokens;
                model_used := llm_model settings;
                provider := "huggingface";
                response_time_ms := 0;
                cost := 0 |}
       end
     end)%py.

Definition _generate_llamacpp (request : GenerationRequest)
    : M LLMService GenerationResponse :=
  (self <- get ;;
   (if llamacpp_model self is None then _load_llamacpp_model else ret tt) ;;;
   self <- get ;;
   match llamacpp_model self with
   | None => raise AssertionError
   | Some llm =>
     input_tokens <- external (llama_tokenize env (prompt request)) ;;
     let input_tokens := Z.of_nat input_tokens in
     text <- external (llama_call env request) ;;
     output_tokens <- external (llama_tokenize env text) ;;
     let output_tokens := Z.of_nat output_tokens in
     let total_tokens := input_tokens + output_tokens in
     let model_name := basename (str_or (llm_model_path settings) "model.gguf") in
     ret {| text := strip text;
            input_tokens := input_tokens;
            output_tokens := output_tokens;
            total_tokens := total_tokens;
            model_used := model_name;
            provider := "llamacpp";
            response_time_ms := 0;
            cost := 0 |}
   end)%py.

(** [request.model or d], the model name the hosted calls pass. *)
Definition model_or (request : GenerationRequest) (d : string) : string :=
  str_or (Some (model request)) d.

Definition with_model (m : string) (request : GenerationRequest) :=
  {| prompt := prompt request; max_tokens := max_tokens request;
     temperature := temperature request; top_p := top_p request;
     model := m; stop_sequences := stop_sequences request |}.

Definition _generate_openai (request : GenerationRequest)
    : M LLMService GenerationResponse :=
  (if negb (openai_imported env) then
     raise (RuntimeError "openai package not installed.")
   else
     response <- external
       (openai_create env (with_model (model_or request "gpt-3.5-turbo") request)) ;;
     ret {| text := content response;
            input_tokens := prompt_tokens response;
            output_tokens := completion_tokens response;
            total_tokens := usage_total_tokens response;
            model_used := model_or request "gpt-3.5-turbo";
            provider := "openai";
            response_time_ms := 0;
            cost := 0 |})%py.

Definition _generate_anthropic (request : GenerationRequest)
    : M LLMService GenerationResponse :=
  (if negb (anthropic_imported env) then
     raise (RuntimeError "anthropic package not installed.")
   else
     self <- get ;;
     match anthropic_client self with
     | None =>
         raise (AttributeError
           "'LLMService' object has no attribute 'anthropic_client'")
     | Some client =>
       response <- external
         (anthropic_create env
            (with_model (model_or request "claude-3-sonnet-20240229") request)) ;;
       ret {| text := content_text response;
              input_tokens := usage_input_tokens response;
              output_tokens := usage_output_tokens response;
              total_tokens :=
                usage_input_tokens response + usage_output_tokens response;
              model_used := model_or request "claude-3-sonnet-20240229";
              provider := "anthropic";
              response_time_ms := 0;
              cost := 0 |}
     end)%py.

Definition _calculate_cost (total_tokens : Z) : Q :=
  (* Free local setup => cost 0 *)
  0.

(** The adapter [generate_text] selects: its [if]/[elif] chain. *)
Definition dispatch (request : GenerationRequest)
    : M LLMService GenerationResponse :=
  let provider := lower (llm_provider settings) in
  if decide (provider = "huggingface") then _generate_huggingface request
  else if decide (provider = "openai") then _generate_openai request
  else if decide (provider = "anthropic") then _generate_anthropic request
  else _generate_llamacpp request.

(** [start_time] and [end_time] are the two readings of [time.time()]. *)
Definition generate_text (request : GenerationRequest)
    (start_time end_time : Q) : M LLMService GenerationResponse :=
  (response <- dispatch request ;;
   let response :=
     set_response_time_ms (int_of_Q ((end_time - start_time) * 1000)) response in
   let response := set_cost (_calculate_cost (total_tokens response)) response in
   ret response)%py.

End Service.

End LLM.

(** ** analytics_service.py: [track_usage] *)

Module Analytics.

(** The values a [usage_data] dictionary and a [Usage] row hold. *)
Inductive value : Type :=
  | Str (s : string)
  | Int (z : Z)
  | Float (q : Q)
  | PyNone.

(** A row of the [Usage] table, with the columns [track_usage] fills. *)
Record Usage : Type := mkUsage {
  user_id : Z;
  endpoint : value;
  model_used : value;
  provider : value;
  input_tokens : value;
  output_tokens : value;
  total_tokens : value;
  cost_per_1k_tokens : value;
  total_cost : value;
  request_id : value;
  response_time_ms : value;
  status_code : value
}.

(** The collaborators of [track_usage]. [Usage.calculate_cost] belongs to
    [app/models/usage.py], and the session to SQLAlchemy: both are taken as
    given. [add u], [commit u] and [refresh u] are the outcomes of
    [db.add(u)], [db.commit()] and [db.refresh(u)]: the exception raised,
    if any. The row is in the table once the commit has returned. *)
Record Store : Type := mkStore {
  calculate_cost : Usage -> result Usage;
  add : Usage -> option exn;
  commit : Usage -> option exn;
  refresh : Usage -> option exn
}.

Definition session (o : option exn) : M (list Usage) unit :=
  match o with Some e => raise e | None => ret tt end.

(** [d.get(k, v)] and [d.get(k)] *)
Definition get_or (d : gmap string value) (k : string) (v : value) : value :=
  default v (d !! k).

Definition track_usage (store : Store) (uid : Z) (usage_data : gmap string value)
    : M (list Usage) Usage :=
  (let usage :=
     {| user_id := uid;
        endpoint := get_or usage_data "endpoint" (Str "");
        model_used := get_or usage_data "model_used" (Str "");
        provider := get_or usage_data "provider" (Str "");
        input_tokens := get_or usage_data "input_tokens" (Int 0);
        output_tokens := get_or usage_data "output_tokens" (Int 0);
        total_tokens := get_or usage_data "total_tokens" (Int 0);
        cost_per_1k_tokens := get_or usage_data "cost_per_1k_tokens" (Float (2 # 1000));
        total_cost := get_or usage_data "total_cost" (Float 0);
        request_id := get_or usage_data "request_id" PyNone;
        response_time_ms := get_or usage_data "response_time_ms" PyNone;
        status_code := get_or usage_data "status_code" (Int 200) |} in
   usage <- (fun rows => (calculate_cost store usage, rows)) ;;
   session (add store usage) ;;;
   session (commit store usage) ;;;
   modify (fun rows => (rows ++ [usage])%list) ;;;
   session (refresh store usage) ;;;
   ret usage)%py.

End Analytics.

(** ** main.py: the [/api/v1/generate] endpoint *)

Module Main.

Record GenerateRequestBody : Type := mkBody {
  prompt : string;
  max_tokens : Z;
  temperature : Q;
  top_p : Q;
  model : option string;
  stop_sequences : option (list string)
}.

(** The authenticated caller, as far as the endpoint reads it. *)
Record User : Type := mkUser { id : Z; is_active : bool }.

(** The JSON body of a 200 answer. *)
Record Response : Type := mkResponse {
  text : string;
  usage_total_tokens : Z;
  usage_cost : Q;
  model_name : string;
  provider : string
}.

(** Everything the endpoint calls outside the two services of the core.
    [User.update_usage] belongs to [app/models], the session to
    SQLAlchemy. *)
Record Env : Type := mkEnv {
  fromtimestamp : Z -> option RateLimit.datetime_error;
    (* see [RateLimit.check_rate_limit] *)
  llm_env : LLM.Env;
  store : Analytics.Store;
  update_usage : User -> Z -> option exn;
  db_commit : option exn
}.

(** The module-level singletons, the [Usage] table, and the records
    emitted by the logger of [main]. *)
Record World : Type := mkWorld {
  rate_limit_service : RateLimit.RateLimitService;
  llm_service : LLM.LLMService;
  usage_table : list Analytics.Usage;
  log : list LogRecord
}.

Definition set_rate_limit_service (r : RateLimit.RateLimitService) (w : World) :=
  {| rate_limit_service := r; llm_service := llm_service w;
     usage_table := usage_table w; log := log w |}.
Definition set_llm_service (l : LLM.LLMService) (w : World) :=
  {| rate_limit_service := rate_limit_service w; llm_service := l;
     usage_table := usage_table w; log := log w |}.
Definition set_usage_table (t : list Analytics.Usage) (w : World) :=
  {| rate_limit_service := rate_limit_service w; llm_service := llm_service w;
     usage_table := t; log := log w |}.

Definition logger (l : level) (msg : string) : M World unit :=
  modify (fun w =>
    {| rate_limit_service := rate_limit_service w; llm_service := llm_service w;
       usage_table := usage_table w; log := (log w ++ [(l, msg)])%list |}).

Definition on_rate_limit {A} := @zoom World _ A rate_limit_service set_rate_limit_service.
Definition on_llm {A} := @zoom World _ A llm_service set_llm_service.
Definition on_db {A} := @zoom World _ A usage_table set_usage_table.

Definition external (o : option exn) : M World unit :=
  match o with Some e => raise e | None => ret tt end.

(** The state of the process once its modules are imported. *)
Definition startup (env : Env) (settings : Settings) : World :=
  {| rate_limit_service :=
       RateLimit.init (rate_limit_requests settings) (rate_limit_window settings);
     llm_service := snd (LLM.init (llm_env env) settings);
     usage_table := [];
     log := [] |}.

Section Endpoint.
Variable env : Env.
Variable settings : Settings.

(** The local [gen_request] of the endpoint. *)
Definition gen_request (body : GenerateRequestBody) : LLM.GenerationRequest :=
  {| LLM.prompt := prompt body;
     LLM.max_tokens := max_tokens body;
     LLM.temperature := temperature body;
     LLM.top_p := top_p body;
     LLM.model := str_or (model body) "default";
     LLM.stop_sequences := stop_sequences body |}.

(** The local dictionary [usage_data] of the endpoint. *)
Definition usage_data (response : LLM.GenerationResponse)
    : gmap string Analytics.value :=
  <["endpoint" := Analytics.Str "/api/v1/generate"]>
  (<["model_used" := Analytics.Str (LLM.model_used response)]>
  (<["provider" := Analytics.Str (LLM.provider response)]>
  (<["input_tokens" := Analytics.Int (LLM.input_tokens response)]>
  (<["output_tokens" := Analytics.Int (LLM.output_tokens response)]>
  (<["total_tokens" := Analytics.Int (LLM.total_tokens response)]>
  (<["total_cost" := Analytics.Float (LLM.cost response)]>
  (<["response_time_ms" := Analytics.Int (LLM.response_time_ms response)]>
  (<["status_code" := Analytics.Int 200]> ∅)))))))).

(** The key the caller is counted under: [f"user:{current_user.id}"]. *)
Definition rate_limit_key (current_user : User) : string :=
  "user:" ++ pretty (id current_user).

(** [now] is the clock reading of the rate limiter, [start_time] and
    [end_time] are the two readings of [llm_service.generate_text]. *)
Definition generate_text (body : GenerateRequestBody) (current_user : User)
    (now : Z) (start_time end_time : Q) : M World Response :=
  ((* Rate limiting *)
   on_rate_limit
     (RateLimit.enforce_rate_limit (fromtimestamp env)
        (rate_limit_key current_user) None None now) ;;;
   try_except
     (response <- on_llm
        (LLM.generate_text (llm_env env) settings (gen_request body)
           start_time end_time) ;;
      on_db (Analytics.track_usage (store env) (id current_user)
               (usage_data response)) ;;;
      external (update_usage env current_user (LLM.total_tokens response)) ;;;
      external (db_commit env) ;;;
      ret {| text := LLM.text response;
             usage_total_tokens := LLM.total_tokens response;
             usage_cost := LLM.cost response;
             model_name := LLM.model_used response;
             provider := LLM.provider response |})
     (fun e =>
        logger ERROR ("Generation failed: " ++ str_exn e) ;;;
        raise (HTTPException 500 "Generation failed")))%py.

End Endpoint.

End Main.

(** ** Vocabulary of the statements *)

Module RateLimitSpec.
Import RateLimit.

(** The limit and the window a call works with. *)
Definition limit_of (self : RateLimitService) (requests : option Z) : Z :=
  default (default_requests self) requests.
Definition window_of (self : RateLimitService) (window : option Z) : Z :=
  default (default_window self) window.

(** The window a clock reading falls in. *)
Definition aligned (now window : Z) : Z := (now / window) * window.

(** The number of requests already counted for [identifier] in the window
    starting at [ws]: a missing or stale entry counts for nothing. *)
Definition count_in (self : RateLimitService) (identifier : string) (ws : Z) : Z :=
  match _counters self !! identifier with
  | Some e => if decide (window_start e = ws) then count e else 0
  | None => 0
  end.

Definition allowed (limit remaining ws window : Z) : result (bool * Info) :=
  Ok (true, {| limit := limit; remaining := remaining;
               reset := ws + window; window := window |}).
Definition denied (limit ws window : Z) : result (bool * Info) :=
  Ok (false, {| limit := limit; remaining := 0;
                reset := ws + window; window := window |}).

(** What a call answers when it finds [j] requests counted. *)
Definition outcome (limit ws window j : Z) : result (bool * Info) :=
  if decide (limit <= j) then denied limit ws window
  else allowed limit (limit - (j + 1)) ws window.

(** No stored count is negative. *)
Definition counts_nonneg (self : RateLimitService) : Prop :=
  forall k e, _counters self !! k = Some e -> 0 <= count e.

(** A limiter that has served one request of ["u1"] in the window [0, 60). *)
Definition after_one_call : RateLimitService :=
  snd (check_rate_limit utc "u1" (Some 3) (Some 60) 0 (init 100 3600)).

End RateLimitSpec.

Module LLMSpec.
Import LLM.

(** The provider names [_initialize_models] knows, after lowering. *)
Definition known_provider (p : string) : bool :=
  bool_decide (p = "huggingface") || bool_decide (p = "openai")
  || bool_decide (p = "anthropic") || is_llamacpp_name p.

(** What each provider needs before it can serve: the runtime library for
    the transformer pipeline, the library and the credential for a hosted
    provider, the library and the model file for llama.cpp, which also
    serves the names that are not known. *)
Definition prerequisite_met (env : Env) (settings : Settings) : bool :=
  let p := lower (llm_provider settings) in
  if decide (p = "huggingface") then transformers_imported env
  else if decide (p = "openai") then
    openai_imported env && truthy (openai_api_key settings)
  else if decide (p = "anthropic") then
    anthropic_imported env && truthy (anthropic_api_key settings)
  else
    llama_cpp_imported env && truthy (llm_model_path settings)
    && path_exists env (default "" (llm_model_path settings)).

(** C5 as worded: with a known provider configured and its prerequisite
    missing, constructing the service raises. *)
Definition fails_fast (env : Env) (settings : Settings) : Prop :=
  known_provider (lower (llm_provider settings)) = true ->
  prerequisite_met env settings = false ->
  exists e self, init env settings = (Raise e, self).

Definition is_warning (r : LogRecord) : bool :=
  match fst r with WARNING => true | _ => false end.

(** C6 as worded, for dispatch: with a name that is not known,
    [generate_text] logs a warning. *)
Definition dispatch_warns (env : Env) (settings : Settings)
    (request : GenerationRequest) (t0 t1 : Q) (self : LLMService) : Prop :=
  known_provider (lower (llm_provider settings)) = false ->
  existsb is_warning
    (drop (length (log self))
       (log (snd (generate_text env settings request t0 t1 self)))) = true.

(** C2 as worded. *)
Definition total_is_sum (env : Env) (settings : Settings)
    (request : GenerationRequest) (t0 t1 : Q) (self : LLMService) : Prop :=
  forall r self',
    generate_text env settings request t0 t1 self = (Ok r, self') ->
    total_tokens r = input_tokens r + output_tokens r.

(** The cost model of the specification. *)
Definition cost_model (total_tokens : Z) (rate : Q) : Q :=
  (inject_Z total_tokens / 1000) * rate.

(** C3 as worded. *)
Definition cost_follows_rate (env : Env) (settings : Settings)
    (request : GenerationRequest) (t0 t1 : Q) (self : LLMService) : Prop :=
  forall r self',
    generate_text env settings request t0 t1 self = (Ok r, self') ->
    cost r == cost_model (total_tokens r) (price_per_1k_tokens settings).

(** The outputs of an adapter that are not derived: the text, the two
    token counts, and the names. *)
Definition same_raw_outputs (a b : GenerationResponse) : Prop :=
  text a = text b /\ input_tokens a = input_tokens b
  /\ output_tokens a = output_tokens b
  /\ model_used a = model_used b /\ provider a = provider b.

(** C9 as worded: two adapters that agree on the raw outputs lead to the
    same derived fields, whatever total, cost and latency they report. *)
Definition derived_fields_independent : Prop :=
  forall env1 env2 settings request t0 t1 self a1 a2 self1 self2,
    dispatch env1 settings request self = (Ok a1, self1) ->
    dispatch env2 settings request self = (Ok a2, self2) ->
    same_raw_outputs a1 a2 ->
    exists r1 r2,
      generate_text env1 settings request t0 t1 self = (Ok r1, self1)
      /\ generate_text env2 settings request t0 t1 self = (Ok r2, self2)
      /\ total_tokens r1 = total_tokens r2
      /\ cost r1 = cost r2
      /\ response_time_ms r1 = response_time_ms r2.

End LLMSpec.

(** ** Concrete worlds *)

Module Scenario.
Import LLM.

(** Back ends that answer ["Hello"] with one input and one output token. *)
Definition stub_env : Env :=
  {| transformers_imported := true;
     openai_imported := true;
     anthropic_imported := true;
     llama_cpp_imported := true;
     path_exists := fun _ => true;
     hf_load := fun _ => None;
     hf_input_ids := fun _ => Ok 1%nat;
     hf_pipe := fun request => Ok (prompt request ++ "Hello");
     hf_encode := fun _ => Ok 1%nat;
     Llama := fun _ => None;
     llama_tokenize := fun _ => Ok 1%nat;
     llama_call := fun _ => Ok "Hello";
     openai_create := fun _ =>
       Ok {| content := "Hello"; prompt_tokens := 1;
             completion_tokens := 1; usage_total_tokens := 2 |};
     Anthropic := fun _ => None;
     anthropic_create := fun _ =>
       Ok {| content_text := "Hello"; usage_input_tokens := 1;
             usage_output_tokens := 1 |} |}.

(** The same, with a hosted provider whose usage block reports a total of
    5 for 1 + 1 tokens. *)
Definition odd_total_env : Env :=
  {| transformers_imported := true;
     openai_imported := true;
     anthropic_imported := true;
     llama_cpp_imported := true;
     path_exists := fun _ => true;
     hf_load := fun _ => None;
     hf_input_ids := fun _ => Ok 1%nat;
     hf_pipe := fun request => Ok (prompt request ++ "Hello");
     hf_encode := fun _ => Ok 1%nat;
     Llama := fun _ => None;
     llama_tokenize := fun _ => Ok 1%nat;
     llama_call := fun _ => Ok "Hello";
     openai_create := fun _ =>
       Ok {| content := "Hello"; prompt_tokens := 1;
             completion_tokens := 1; usage_total_tokens := 5 |};
     Anthropic := fun _ => None;
     anthropic_create := fun _ =>
       Ok {| content_text := "Hello"; usage_input_tokens := 1;
             usage_output_tokens := 1 |} |}.

(** The same as [stub_env], on a machine without the model file. *)
Definition no_model_file_env : Env :=
  {| transformers_imported := true;
     openai_imported := true;
     anthropic_imported := true;
     llama_cpp_imported := true;
     path_exists := fun _ => false;
     hf_load := fun _ => None;
     hf_input_ids := fun _ => Ok 1%nat;
     hf_pipe := fun request => Ok (prompt request ++ "Hello");
     hf_encode := fun _ => Ok 1%nat;
     Llama := fun _ => None;
     llama_tokenize := fun _ => Ok 1%nat;
     llama_call := fun _ => Ok "Hello";
     openai_create := fun _ =>
       Ok {| content := "Hello"; prompt_tokens := 1;
             completion_tokens := 1; usage_total_tokens := 2 |};
     Anthropic := fun _ => None;
     anthropic_create := fun _ =>
       Ok {| content_text := "Hello"; usage_input_tokens := 1;
             usage_output_tokens := 1 |} |}.

Definition openai_settings : Settings :=
  {| llm_provider := "openai";
     llm_model := "meta-llama/Llama-2-7b-chat-hf";
     llm_model_path := Some "models/TinyLlama-1.1B-Chat-v1.0.Q4_K_M.gguf";
     openai_api_key := Some "sk-test";
     anthropic_api_key := None;
     rate_limit_requests := 100;
     rate_limit_window := 3600;
     price_per_1k_tokens := 0 |}.

(** [{prompt: "Hi", max_output_tokens: 10}], with the defaults of
    [GenerateRequestBody] for the rest. *)
Definition hi : GenerationRequest :=
  {| prompt := "Hi"; max_tokens := 10; temperature := 7 # 10; top_p := 9 # 10;
     model := "default"; stop_sequences := None |}.

(** What [stub_env] makes of [hi] through llama.cpp, in 250 ms. *)
Definition hello : GenerationResponse :=
  {| text := "Hello"; input_tokens := 1; output_tokens := 1; total_tokens := 2;
     model_used := "TinyLlama-1.1B-Chat-v1.0.Q4_K_M.gguf";
     provider := "llamacpp"; response_time_ms := 250; cost := 0 |}.

End Scenario.

Module MainSpec.
Import Main.


(** C7 as worded, for the dispatch that succeeds: when the caller is let in
    and the generation succeeds, the call leaves one more row in the usage
    table. *)
Definition one_row_per_successful_dispatch (env : Env) (settings : Settings)
    (body : GenerateRequestBody) (current_user : User) (now : Z) (t0 t1 : Q)
    (w : World) : Prop :=
  forall info w1 response llm',
    on_rate_limit
      (RateLimit.enforce_rate_limit (fromtimestamp env)
         (rate_limit_key current_user) None None now) w
      = (Ok info, w1) ->
    LLM.generate_text (llm_env env) settings (gen_request body) t0 t1
      (llm_service w1) = (Ok response, llm') ->
    exists u,
      usage_table (snd (generate_text env settings body current_user now t0 t1 w))
      = (usage_table w ++ [u])%list.

End MainSpec.

Module MainScenario.
Import Main.

(** A data base that stores what it is given. *)
Definition stub_env : Env :=
  {| fromtimestamp := RateLimit.utc;
     llm_env := Scenario.stub_env;
     store := {| Analytics.calculate_cost := fun u => Ok u;
                 Analytics.add := fun _ => None;
                 Analytics.commit := fun _ => None;
                 Analytics.refresh := fun _ => None |};
     update_usage := fun _ _ => None;
     db_commit := None |}.

(** A data base whose commit of a usage row fails. *)
Definition failing_sink_env : Env :=
  {| fromtimestamp := RateLimit.utc;
     llm_env := Scenario.stub_env;
     store := {| Analytics.calculate_cost := fun u => Ok u;
                 Analytics.add := fun _ => None;
                 Analytics.commit :=
                   fun _ => Some (ExternalError "database is locked");
                 Analytics.refresh := fun _ => None |};
     update_usage := fun _ _ => None;
     db_commit := None |}.

Definition zero_limit_settings : Settings :=
  {| llm_provider := "llamacpp";
     llm_model := "meta-llama/Llama-2-7b-chat-hf";
     llm_model_path := Some "models/TinyLlama-1.1B-Chat-v1.0.Q4_K_M.gguf";
     openai_api_key := None;
     anthropic_api_key := None;
     rate_limit_requests := 0;
     rate_limit_window := 3600;
     price_per_1k_tokens := 0 |}.

Definition hi : GenerateRequestBody :=
  {| prompt := "Hi"; max_tokens := 10; temperature := 7 # 10; top_p := 9 # 10;
     model := None; stop_sequences := None |}.

Definition user1 : User := {| id := 1; is_active := true |}.

(** The row the endpoint stores for [hi], served by [stub_env] in 250 ms. *)
Definition hello_row : Analytics.Usage :=
  {| Analytics.user_id := 1;
     Analytics.endpoint := Analytics.Str "/api/v1/generate";
     Analytics.model_used := Analytics.Str "TinyLlama-1.1B-Chat-v1.0.Q4_K_M.gguf";
     Analytics.provider := Analytics.Str "llamacpp";
     Analytics.input_tokens := Analytics.Int 1;
     Analytics.output_tokens := Analytics.Int 1;
     Analytics.total_tokens := Analytics.Int 2;
     Analytics.cost_per_1k_tokens := Analytics.Float (2 # 1000);
     Analytics.total_cost := Analytics.Float 0;
     Analytics.request_id := Analytics.PyNone;
     Analytics.response_time_ms := Analytics.Int 250;
     Analytics.status_code := Analytics.Int 200 |}.

End MainScenario.

(** ** Traces of the rate limiter *)

Module RateLimitTrace.
Import RateLimit.

(** One call of [check_rate_limit], with the clock reading it meets. *)
Record Call : Type := mkCall {
  identifier : string;
  requests : option Z;
  window : option Z;
  now : Z
}.

(** The calls in order, each paired with its answer. *)
Fixpoint run (fromtimestamp : Z -> option datetime_error)
    (calls : list Call) (self : RateLimitService)
    : list (Call * result (bool * Info)) * RateLimitService :=
  match calls with
  | [] => ([], self)
  | c :: calls =>
      let '(r, self) :=
        check_rate_limit fromtimestamp (identifier c) (requests c) (window c)
          (now c) self in
      let '(rs, self) := run fromtimestamp calls self in
      ((c, r) :: rs, self)
  end.

Definition is_for (id : string) (c : Call) : bool :=
  bool_decide (identifier c = id).

(** The answers given to one identity, in order. *)
Definition answers_to (id : string) (tr : list (Call * result (bool * Info)))
    : list (result (bool * Info)) :=
  map snd (List.filter (fun cr => is_for id (fst cr)) tr).

Definition is_allowed (r : result (bool * Info)) : bool :=
  match r with
  | Ok (true, _) => true
  | _ => false
  end.

(** Two services that [check_rate_limit] cannot tell apart on [id]. *)
Definition agree_on (id : string) (s1 s2 : RateLimitService) : Prop :=
  default_requests s1 = default_requests s2
  /\ default_window s1 = default_window s2
  /\ _counters s1 !! id = _counters s2 !! id.

End RateLimitTrace.

(** ** llm_service.py: [get_available_models] *)

Module LLMModels.

(** The dictionary that describes a model. *)
Record ModelEntry : Type := mkModel {
  id : string;
  name : string;
  provider : string;
  type : string
}.

Definition get_available_models (settings : Settings) : list ModelEntry :=
  let models : list ModelEntry := [] in
  let provider := lower (llm_provider settings) in
  let models :=
    if LLM.is_llamacpp_name provider then
      (models ++ [{| id := str_or (llm_model_path settings) "model.gguf";
                     name := "Local GGUF Model (llama.cpp)";
                     provider := "llamacpp";
                     type := "text-generation" |}])%list
    else models in
  let models :=
    if bool_decide (provider = "huggingface") && truthy (Some (llm_model settings))
    then
      (models ++ [{| id := llm_model settings;
                     name := "Local LLaMA Model";
                     provider := "huggingface";
                     type := "text-generation" |}])%list
    else models in
  let models :=
    if bool_decide (provider = "openai") then
      (models ++ [{| id := "gpt-3.5-turbo"; name := "GPT-3.5 Turbo";
                     provider := "openai"; type := "chat" |}])%list
    else models in
  let models :=
    if bool_decide (provider = "anthropic") then
      (models ++ [{| id := "claude-3-sonnet-20240229"; name := "Claude 3 Sonnet";
                     provider := "anthropic"; type := "chat" |}])%list
    else models in
  models.

(** The name an adapter writes in the [provider] field of its response,
    for a lowered provider name. *)
Definition adapter_name (p : string) : string :=
  if decide (p = "huggingface") then "huggingface"
  else if decide (p = "openai") then "openai"
  else if decide (p = "anthropic") then "anthropic"
  else "llamacpp".

(** The configured name is served by the llama.cpp adapter. *)
Definition adapter_is_llamacpp (settings : Settings) : Prop :=
  lower (llm_provider settings) <> "huggingface"
  /\ lower (llm_provider settings) <> "openai"
  /\ lower (llm_provider settings) <> "anthropic".

(** The constructor of the model or of the client succeeds: the one
    external step of an initialization that is not a prerequisite. Under
    openai nothing is constructed: the key is assigned to the module. *)
Definition constructor_succeeds (env : LLM.Env) (settings : Settings) : Prop :=
  let p := lower (llm_provider settings) in
  if decide (p = "huggingface") then LLM.hf_load env (llm_model settings) = None
  else if decide (p = "openai") then True
  else if decide (p = "anthropic") then
    LLM.Anthropic env (anthropic_api_key settings) = None
  else LLM.Llama env (default "" (llm_model_path settings)) = None.

(** What the initialization of each provider leaves in the service. *)
Definition ready (settings : Settings) (self : LLM.LLMService) : Prop :=
  let p := lower (llm_provider settings) in
  if decide (p = "huggingface") then
    LLM.models self !! "default" = Some (llm_model settings)
    /\ LLM.tokenizers self !! "default" = Some (llm_model settings)
    /\ LLM.pipelines self !! "default" = Some (llm_model settings)
  else if decide (p = "openai") then
    LLM.openai_module_api_key self = openai_api_key settings
  else if decide (p = "anthropic") then
    LLM.anthropic_client self = anthropic_api_key settings
  else
    LLM.llamacpp_model self = Some (default "" (llm_model_path settings)).

Definition is_error (r : LogRecord) : bool :=
  match fst r with ERROR => true | _ => false end.

End LLMModels.

(** ** More concrete worlds *)

Module MoreScenario.
Import Main.

(** A data base that stores the usage row, and whose last commit fails. *)
Definition failing_commit_env : Env :=
  {| fromtimestamp := RateLimit.utc;
     llm_env := Scenario.stub_env;
     store := {| Analytics.calculate_cost := fun u => Ok u;
                 Analytics.add := fun _ => None;
                 Analytics.commit := fun _ => None;
                 Analytics.refresh := fun _ => None |};
     update_usage := fun _ _ => None;
     db_commit := Some (ExternalError "database is locked") |}.

(** A data base that stores the usage row and cannot read it back. *)
Definition failing_refresh_env : Env :=
  {| fromtimestamp := RateLimit.utc;
     llm_env := Scenario.stub_env;
     store := {| Analytics.calculate_cost := fun u => Ok u;
                 Analytics.add := fun _ => None;
                 Analytics.commit := fun _ => None;
                 Analytics.refresh :=
                   fun _ => Some (ExternalError "connection lost") |};
     update_usage := fun _ _ => None;
     db_commit := None |}.

(** A limiter configured with a window of a million million seconds: the
    end of its first window is past the year 9999. *)
Definition long_window_settings : Settings :=
  {| llm_provider := "llamacpp";
     llm_model := "meta-llama/Llama-2-7b-chat-hf";
     llm_model_path := Some "models/TinyLlama-1.1B-Chat-v1.0.Q4_K_M.gguf";
     openai_api_key := None;
     anthropic_api_key := None;
     rate_limit_requests := 100;
     rate_limit_window := 1000000000000;
     price_per_1k_tokens := 0 |}.

Definition zero_window_settings : Settings :=
  {| llm_provider := "llamacpp";
     llm_model := "meta-llama/Llama-2-7b-chat-hf";
     llm_model_path := Some "models/TinyLlama-1.1B-Chat-v1.0.Q4_K_M.gguf";
     openai_api_key := None;
     anthropic_api_key := None;
     rate_limit_requests := 100;
     rate_limit_window := 0;
     price_per_1k_tokens := 0 |}.

End MoreScenario.

(** ** auth_service.py: API keys *)

Module Auth.

(** A row of the [APIKey] table: the columns the service reads and writes,
    and [details] for the rest (the hash, the dates, the permissions). *)
Record APIKey : Type := mkKey {
  id : Z;
  user_id : Z;
  key_name : string;
  key_prefix : string;
  is_active : bool;
  details : string
}.

Definition set_is_active (b : bool) (r : APIKey) : APIKey :=
  {| id := id r; user_id := user_id r; key_name := key_name r;
     key_prefix := key_prefix r; is_active := b; details := details r |}.

(** The two tables the service queries. A query without an order is
    answered in the order of the list. The records of the module logger
    are left out. *)
Record Db : Type := mkDb {
  api_keys : list APIKey;
  users : list Main.User
}.

Definition set_api_keys (l : list APIKey) (db : Db) : Db :=
  {| api_keys := l; users := users db |}.

(** The methods of [APIKey], which belong to [app/models/api_key.py], and
    the outcomes of the round trips of the session, its queries and
    [db.commit()]: the exception raised, if any. *)
Record Env : Type := mkEnv {
  get_key_prefix : string -> string;
  verify_key : APIKey -> string -> bool;
  is_expired : APIKey -> bool;
  update_last_used : APIKey -> APIKey;
  query_api_key : option exn;   (* db.query(APIKey). ... .first() *)
  query_user : option exn;      (* db.query(User). ... .first() *)
  commit : option exn
}.

(** An assignment to the object a query returned, once committed: the
    first row the query selects is replaced. *)
Fixpoint update_first {A} (P : A -> bool) (f : A -> A) (l : list A) : list A :=
  match l with
  | [] => []
  | x :: l => if P x then f x :: l else x :: update_first P f l
  end.

Definition db_commit (env : Env) : M Db unit :=
  match commit env with Some e => raise e | None => ret tt end.
Definition db_query (o : option exn) : M Db unit :=
  match o with Some e => raise e | None => ret tt end.

Definition verify_api_key (env : Env) (api_key : string) : M Db (option APIKey) :=
  (if decide (api_key = "") then ret None
   else
     (* Get the key prefix for faster lookup *)
     let prefix := get_key_prefix env api_key in
     let selected (r : APIKey) :=
       (bool_decide (key_prefix r = prefix) && is_active r)%bool in
     db_query (query_api_key env) ;;;
     db <- get ;;
     match List.find selected (api_keys db) with
     | None => ret None
     | Some key_record =>
         if negb (verify_key env key_record api_key) then ret None
         else if is_expired env key_record then ret None
         else
           db_commit env ;;;
           modify (fun db =>
             set_api_keys
               (update_first selected (update_last_used env) (api_keys db)) db) ;;;
           ret (Some (update_last_used env key_record))
     end)%py.

Definition get_user_by_api_key (env : Env) (api_key : string)
    : M Db (option Main.User) :=
  (key_record <- verify_api_key env api_key ;;
   match key_record with
   | None => ret None
   | Some key_record =>
       db_query (query_user env) ;;;
       db <- get ;;
       ret (List.find (fun u => bool_decide (Main.id u = user_id key_record))
              (users db))
   end)%py.

Definition revoke_api_key (env : Env) (uid key_id : Z) : M Db bool :=
  (let selected (r : APIKey) :=
     (bool_decide (id r = key_id) && bool_decide (user_id r = uid))%bool in
   db_query (query_api_key env) ;;;
   db <- get ;;
   match List.find selected (api_keys db) with
   | None => ret false
   | Some key_record =>
       db_commit env ;;;
       modify (fun db =>
         set_api_keys (update_first selected (set_is_active false) (api_keys db)) db) ;;;
       ret true
   end)%py.

(** [s.replace(old, "")] for a pattern [old] that is not empty: the
    occurrences of [old] are removed from left to right. [skip] counts the
    characters of a match that are still to be dropped. *)
Fixpoint remove_go (old : string) (skip : nat) (s : string) : string :=
  match s with
  | EmptyString => EmptyString
  | String c s' =>
      match skip with
      | S k => remove_go old k s'
      | O =>
          if String.prefix old s then remove_go old (String.length old - 1) s'
          else String c (remove_go old 0 s')
      end
  end.
Definition remove_all (old s : string) : string := remove_go old 0 s.

(** main.py: the dependency [get_current_user]. [authorization] is the
    header of that name, when the request has one. *)
Definition get_current_user (env : Env) (authorization : option string)
    : M Db Main.User :=
  (let api_key := remove_all "Bearer " (default "" authorization) in
   if decide (api_key = "") then raise (HTTPException 401 "API key required")
   else
     user <- get_user_by_api_key env api_key ;;
     match user with
     | None => raise (HTTPException 401 "Invalid API key")
     | Some user =>
         if negb (Main.is_active user) then
           raise (HTTPException 401 "Invalid API key")
         else ret user
     end)%py.

End Auth.

Module AuthScenario.
Import Auth.

(** Keys are verified by comparing them with [details], and have their
    first three characters as prefix. *)
Definition env : Env :=
  {| get_key_prefix := fun k => String.substring 0 3 k;
     verify_key := fun r k => bool_decide (details r = k);
     is_expired := fun _ => false;
     update_last_used := fun r => r;
     query_api_key := None;
     query_user := None;
     commit := None |}.

Definition key_of_alice : APIKey :=
  {| id := 7; user_id := 1; key_name := "Default Key"; key_prefix := "sk-";
     is_active := true; details := "sk-alice" |}.

Definition db : Db :=
  {| api_keys := [key_of_alice];
     users := [{| Main.id := 1; Main.is_active := true |}] |}.

End AuthScenario.

(** ** main-deploy.py: the [/api/v1/generate] endpoint of the deployment *)

Module Deploy.

(** [s.split()]: the maximal runs of characters that are not white space. *)
Fixpoint split (s : string) : list string :=
  match s with
  | EmptyString => []
  | String c s' =>
      if is_space c then split s'
      else
        match s' with
        | EmptyString => [String c EmptyString]
        | String c' _ =>
            if is_space c' then String c EmptyString :: split s'
            else
              match split s' with
              | w :: ws => String c w :: ws
              | [] => [String c EmptyString]
              end
        end
  end.

(** [s[:n]] *)
Fixpoint slice_to (n : nat) (s : string) : string :=
  match n, s with
  | S n, String c s => String c (slice_to n s)
  | _, _ => EmptyString
  end.

(** The local [mock_response] of the endpoint. *)
Definition mock_response (prompt : string) : string :=
  "[DEPLOYMENT MODE] This is a mock response to: " ++ slice_to 50 prompt ++ "...".

(** The JSON body of a 200 answer. *)
Record Response : Type := mkResponse {
  text : string;
  usage_total_tokens : Z;
  usage_cost : Q;
  model_name : string;
  provider : string;
  note : string
}.

Record Env : Type := mkEnv {
  fromtimestamp : Z -> option RateLimit.datetime_error;
    (* see [RateLimit.check_rate_limit] *)
  store : Analytics.Store;
  update_usage : Main.User -> Z -> option exn;
  db_commit : option exn
}.

(** The deployment imports the rate limiter and the analytics service, and
    no generation service. *)
Record World : Type := mkWorld {
  rate_limit_service : RateLimit.RateLimitService;
  usage_table : list Analytics.Usage
}.

Definition set_rate_limit_service (r : RateLimit.RateLimitService) (w : World) :=
  {| rate_limit_service := r; usage_table := usage_table w |}.
Definition set_usage_table (t : list Analytics.Usage) (w : World) :=
  {| rate_limit_service := rate_limit_service w; usage_table := t |}.

Definition on_rate_limit {A} :=
  @zoom World _ A rate_limit_service set_rate_limit_service.
Definition on_db {A} := @zoom World _ A usage_table set_usage_table.

Definition external (o : option exn) : M World unit :=
  match o with Some e => raise e | None => ret tt end.

(** The local dictionary [usage_data] of the endpoint. *)
Definition usage_data (prompt : string) : gmap string Analytics.value :=
  <["endpoint" := Analytics.Str "/api/v1/generate"]>
  (<["model_used" := Analytics.Str "mock-deployment"]>
  (<["provider" := Analytics.Str "deployment"]>
  (<["input_tokens" := Analytics.Int (Z.of_nat (length (split prompt)))]>
  (<["output_tokens" :=
       Analytics.Int (Z.of_nat (length (split (mock_response prompt))))]>
  (<["total_tokens" :=
       Analytics.Int (Z.of_nat (length (split prompt))
                      + Z.of_nat (length (split (mock_response prompt))))]>
  (<["total_cost" := Analytics.Float 0]>
  (<["response_time_ms" := Analytics.Int 100]>
  (<["status_code" := Analytics.Int 200]> ∅)))))))).

(** [usage_data["total_tokens"]] *)
Definition total_tokens (prompt : string) : Z :=
  Z.of_nat (length (split prompt))
  + Z.of_nat (length (split (mock_response prompt))).

Definition generate_text (env : Env) (body : Main.GenerateRequestBody)
    (current_user : Main.User) (now : Z) : M World Response :=
  ((* Rate limiting *)
   on_rate_limit
     (RateLimit.enforce_rate_limit (fromtimestamp env)
        (Main.rate_limit_key current_user) None None now) ;;;
   (* Track usage *)
   on_db (Analytics.track_usage (store env) (Main.id current_user)
            (usage_data (Main.prompt body))) ;;;
   external (update_usage env current_user (total_tokens (Main.prompt body))) ;;;
   external (db_commit env) ;;;
   ret {| text := mock_response (Main.prompt body);
          usage_total_tokens := total_tokens (Main.prompt body);
          usage_cost := 0;
          model_name := "mock-deployment";
          provider := "deployment";
          note := "Running in deployment mode - local LLM not available" |})%py.

(** The state of the process once its modules are imported. *)
Definition startup (settings : Settings) : World :=
  {| rate_limit_service :=
       RateLimit.init (rate_limit_requests settings) (rate_limit_window settings);
     usage_table := [] |}.

(** A data base that stores what it is given, and one that cannot. *)
Definition stub_env : Env :=
  {| fromtimestamp := RateLimit.utc;
     store := {| Analytics.calculate_cost := fun u => Ok u;
                 Analytics.add := fun _ => None;
                 Analytics.commit := fun _ => None;
                 Analytics.refresh := fun _ => None |};
     update_usage := fun _ _ => None;
     db_commit := None |}.
Definition failing_sink_env : Env :=
  {| fromtimestamp := RateLimit.utc;
     store := {| Analytics.calculate_cost := fun u => Ok u;
                 Analytics.add := fun _ => None;
                 Analytics.commit :=
                   fun _ => Some (ExternalError "database is locked");
                 Analytics.refresh := fun _ => None |};
     update_usage := fun _ _ => None;
     db_commit := None |}.

End Deploy.

(** ** billing_service.py *)

Module Billing.

(** The user, as far as the service reads and writes it. *)
Record User : Type := mkUser {
  id : Z;
  email : string;
  stripe_customer_id : option string
}.

Record Subscription : Type := mkSubscription {
  sub_id : string;
  status : string;
  current_period_end : Z;
  cancel_at_period_end : bool
}.

(** The requests sent to Stripe. *)
Inductive StripeCall : Type :=
  | CustomerCreate (email : string) (user_id : Z)
  | SubscriptionCreate (customer price : string)
  | SubscriptionList (customer : string)
  | SubscriptionModify (sub : string).

(** The outcome of a request: an answer, or a [stripe.error.StripeError]. *)
Inductive stripe (A : Type) : Type :=
  | Done (a : A)
  | StripeError (msg : string).
Arguments Done {A} a.
Arguments StripeError {A} msg.

(** What Stripe answers. A subscription is answered by its id and the
    client secret of the payment intent of its latest invoice. *)
Record Env : Type := mkEnv {
  customer_create : string -> Z -> stripe string;
  subscription_create : string -> string -> stripe (string * string);
  subscription_list : string -> stripe (list Subscription);
  subscription_modify : string -> stripe unit
}.

(** The user passed to the service, the requests sent so far, and the
    records of the module logger. *)
Record State : Type := mkState {
  user : User;
  calls : list StripeCall;
  log : list LogRecord
}.

Definition sent (c : StripeCall) : M State unit :=
  modify (fun st =>
    {| user := user st; calls := (calls st ++ [c])%list; log := log st |}).
Definition logger (l : level) (msg : string) : M State unit :=
  modify (fun st =>
    {| user := user st; calls := calls st; log := (log st ++ [(l, msg)])%list |}).
Definition set_stripe_customer_id (c : string) : M State unit :=
  modify (fun st =>
    {| user := {| id := id (user st); email := email (user st);
                  stripe_customer_id := Some c |};
       calls := calls st; log := log st |}).

(** [self.price_ids] *)
Definition price_ids : gmap string string :=
  <["basic" := "price_basic_monthly"]>
  (<["pro" := "price_pro_monthly"]>
  (<["enterprise" := "price_enterprise_monthly"]> ∅)).

Definition create_customer (env : Env) (mail : string) : M State string :=
  (st <- get ;;
   sent (CustomerCreate mail (id (user st))) ;;;
   match customer_create env mail (id (user st)) with
   | Done customer_id => ret customer_id
   | StripeError e =>
       logger ERROR ("Failed to create Stripe customer: " ++ e) ;;;
       raise (HTTPException 400 "Failed to create billing account")
   end)%py.

Definition create_subscription (env : Env) (tier : string)
    : M State (string * string) :=
  (st <- get ;;
   (if negb (truthy (stripe_customer_id (user st))) then
      customer_id <- create_customer env (email (user st)) ;;
      set_stripe_customer_id customer_id
    else ret tt) ;;;
   let price_id := price_ids !! tier in
   if negb (truthy price_id) then
     raise (ValueError ("Invalid subscription tier: " ++ tier))
   else
     let price_id := default "" price_id in
     st <- get ;;
     let customer := default "" (stripe_customer_id (user st)) in
     sent (SubscriptionCreate customer price_id) ;;;
     match subscription_create env customer price_id with
     | Done subscription => ret subscription
     | StripeError e =>
         logger ERROR ("Failed to create subscription: " ++ e) ;;;
         raise (HTTPException 400 "Failed to create subscription")
     end)%py.

Definition cancel_subscription (env : Env) : M State bool :=
  (st <- get ;;
   if negb (truthy (stripe_customer_id (user st))) then ret false
   else
     let customer := default "" (stripe_customer_id (user st)) in
     sent (SubscriptionList customer) ;;;
     match subscription_list env customer with
     | StripeError e =>
         logger ERROR ("Failed to cancel subscription: " ++ e) ;;; ret false
     | Done subscriptions =>
         match List.find (fun sub => bool_decide (status sub = "active"))
                 subscriptions with
         | None => ret false
         | Some sub =>
             sent (SubscriptionModify (sub_id sub)) ;;;
             match subscription_modify env (sub_id sub) with
             | Done _ => ret true
             | StripeError e =>
                 logger ERROR ("Failed to cancel subscription: " ++ e) ;;;
                 ret false
             end
         end
     end)%py.

(** Stripe answering every request, for a user without a customer. *)
Definition stub_env : Env :=
  {| customer_create := fun _ _ => Done "cus_1";
     subscription_create := fun _ _ => Done ("sub_1", "secret_1");
     subscription_list := fun _ =>
       Done [{| sub_id := "sub_0"; status := "canceled";
                current_period_end := 0; cancel_at_period_end := false |};
             {| sub_id := "sub_1"; status := "active";
                current_period_end := 0; cancel_at_period_end := false |}];
     subscription_modify := fun _ => Done tt |}.
Definition new_user : State :=
  {| user := {| id := 1; email := "a@example.com"; stripe_customer_id := None |};
     calls := []; log := [] |}.
Definition customer : State :=
  {| user := {| id := 1; email := "a@example.com";
                stripe_customer_id := Some "cus_1" |};
     calls := []; log := [] |}.

End Billing.

(** * Properties *)

(** ** The admission controller *)

Module RateLimitFacts.
Import RateLimit RateLimitSpec.

Lemma set_counters_id self : set_counters (_counters self) self = self.
Proof. by destruct self. Qed.

(** One call, described by the count it finds. *)
Lemma check_rate_limit_step fromtimestamp self identifier requests window now :
  let lim := limit_of self requests in
  let w := window_of self window in
  let ws := aligned now w in
  let k := count_in self identifier ws in
  w <> 0 ->
  exists self',
    check_rate_limit fromtimestamp identifier requests window now self =
      (match fromtimestamp (ws + w) with
       | Some d => Raise (exn_of d)
       | None =>
           if decide (lim <= k) then denied lim ws w
           else allowed lim (Z.max 0 (lim - (k + 1))) ws w
       end, self')
    /\ _counters self' !! identifier =
         Some {| window_start := ws;
                 count := if decide (lim <= k) then k else k + 1 |}
    /\ (forall j, j <> identifier -> _counters self' !! j = _counters self !! j)
    /\ default_requests self' = default_requests self
    /\ default_window self' = default_window self.
Proof.
  intros lim w ws k Hw.
  unfold check_rate_limit, _get_window_start.
  change (default (default_window self) window) with w.
  change (default (default_requests self) requests) with lim.
  destruct (decide (w = 0)) as [|_]; [done|].
  change (now / w * w) with ws.
  subst k. unfold count_in.
  destruct (_counters self !! identifier) as [e|] eqn:He;
    [destruct (decide (window_start e = ws)) as [Hws|Hws]|]; cbn;
    repeat case_decide; try lia;
    destruct (fromtimestamp (ws + w));
    (eexists; split; [reflexivity|]); cbn;
    rewrite ?lookup_insert_eq; (split; [|split; [|done]]);
    try (intros j Hj; by rewrite ?lookup_insert_ne);
    try done.
  all: first [by rewrite Hws | rewrite He; destruct e; simpl in *; by subst].
Qed.

Lemma count_in_fresh self identifier ws :
  (forall e, _counters self !! identifier = Some e -> window_start e <> ws) ->
  count_in self identifier ws = 0.
Proof.
  intros Hfresh. unfold count_in.
  destruct (_counters self !! identifier) as [e|] eqn:He; [|done].
  case_decide; [|done]. by destruct (Hfresh e).
Qed.

Lemma count_in_nonneg self identifier ws :
  counts_nonneg self -> 0 <= count_in self identifier ws.
Proof.
  intros Hinv. unfold count_in.
  destruct (_counters self !! identifier) as [e|] eqn:He; [|done].
  case_decide; [|done]. eauto.
Qed.

Lemma check_rate_limit_counts_nonneg
    fromtimestamp self identifier requests window now :
  counts_nonneg self ->
  counts_nonneg
    (snd (check_rate_limit fromtimestamp identifier requests window now self)).
Proof.
  intros Hinv.
  destruct (decide (window_of self window = 0)) as [Hz|Hnz].
  - unfold check_rate_limit, _get_window_start.
    change (default (default_window self) window) with (window_of self window).
    by rewrite Hz.
  - destruct (check_rate_limit_step fromtimestamp self identifier requests
                window now Hnz) as (self' & -> & Hid & Hother & _). simpl.
    intros j e. destruct (decide (j = identifier)) as [->|Hj].
    + rewrite Hid. intros [= <-]. simpl.
      pose proof (count_in_nonneg self identifier
                    (aligned now (window_of self window)) Hinv).
      case_decide; lia.
    + rewrite (Hother j Hj). apply Hinv.
Qed.

Lemma reachable_counts_nonneg self : reachable self -> counts_nonneg self.
Proof.
  induction 1 as [rq w|fromtimestamp self identifier requests window now _ IH].
  - intros k e. simpl. by rewrite lookup_empty.
  - by apply check_rate_limit_counts_nonneg.
Qed.

(** A run of calls inside one window, from a count that has not passed
    the limit. *)
Lemma check_all_in_window fromtimestamp identifier requests window ws nows :
  forall self,
    let lim := limit_of self requests in
    let w := window_of self window in
    let k := count_in self identifier ws in
    w <> 0 ->
    fromtimestamp (ws + w) = None ->
    Forall (fun now => aligned now w = ws) nows ->
    k <= lim ->
    fst (check_all fromtimestamp identifier requests window nows self) =
      map (fun i => outcome lim ws w (k + Z.of_nat i)) (seq 0 (length nows)).
Proof.
  induction nows as [|now nows IH]; intros self lim w k Hw Hft Hin Hk; [done|].
  apply Forall_cons in Hin as [Hnow Hin].
  destruct (check_rate_limit_step fromtimestamp self identifier requests
              window now Hw) as (self' & Hcall & Hid & _ & Hrq & Hwin).
  fold w lim in Hcall, Hid. rewrite Hnow in Hcall, Hid. fold k in Hcall, Hid.
  rewrite Hft in Hcall.
  cbn [check_all length seq map]. rewrite Hcall.
  specialize (IH self').
  unfold limit_of, window_of in IH. rewrite Hrq, Hwin in IH.
  fold (limit_of self requests) (window_of self window) in IH. fold lim w in IH.
  assert (Hk' : count_in self' identifier ws = if decide (lim <= k) then k else k + 1).
  { unfold count_in. rewrite Hid. simpl. by rewrite decide_True. }
  rewrite Hk' in IH.
  destruct (check_all fromtimestamp identifier requests window nows self')
    as [rs self''].
  simpl in IH. simpl. rewrite IH by (done || case_decide; lia).
  f_equal.
  - unfold outcome. rewrite Z.add_0_r.
    case_decide; [done|]. f_equal. f_equal. f_equal. lia.
  - rewrite <- seq_shift, map_map. apply map_ext. intros i.
    unfold outcome. repeat case_decide; try lia; try done.
    do 3 f_equal; lia.
Qed.

(** C1. For a limit above zero, and where [datetime.fromtimestamp] accepts
    the end of the window, the first [limit] calls of an identity in one
    aligned window are allowed, with [remaining] going from [limit - 1] down
    to [0], and the call after them is refused with [remaining = 0] and
    [reset = window_start + window]. *)
Theorem first_calls_allowed_then_denied
    fromtimestamp self identifier requests window ws (nows : list Z) :
  let lim := limit_of self requests in
  let w := window_of self window in
  0 < lim ->
  w <> 0 ->
  fromtimestamp (ws + w) = None ->
  (forall e, _counters self !! identifier = Some e -> window_start e <> ws) ->
  Forall (fun now => aligned now w = ws) nows ->
  length nows = S (Z.to_nat lim) ->
  fst (check_all fromtimestamp identifier requests window nows self) =
    (map (fun i => allowed lim (lim - 1 - Z.of_nat i) ws w) (seq 0 (Z.to_nat lim))
     ++ [denied lim ws w])%list.
Proof.
  intros lim w Hlim Hw Hft Hfresh Hin Hlen.
  pose proof (count_in_fresh self identifier ws Hfresh) as Hk.
  rewrite (check_all_in_window fromtimestamp identifier requests window ws nows
             self Hw Hft Hin)
    by (rewrite Hk; fold lim; lia).
  rewrite Hk, Hlen, seq_S, map_app. fold lim w. clearbody lim w. f_equal.
  - apply map_ext_in. intros i Hi%in_seq. unfold outcome.
    rewrite decide_False by lia. unfold allowed. do 3 f_equal. lia.
  - simpl. unfold outcome. by rewrite decide_True by lia.
Qed.

Lemma first_calls_allowed_then_denied_witness :
  fst (check_all utc "u1" (Some 3) (Some 60) [0; 10; 20; 59] (init 100 3600)) =
    [allowed 3 2 0 60; allowed 3 1 0 60; allowed 3 0 0 60; denied 3 0 60].
Proof.
  apply (first_calls_allowed_then_denied utc (init 100 3600) "u1" (Some 3)
           (Some 60) 0 [0; 10; 20; 59]).
  - reflexivity.
  - discriminate.
  - reflexivity.
  - intros e He. simpl in He. rewrite lookup_empty in He. discriminate.
  - repeat constructor.
  - reflexivity.
Defined.

(** Once the clock has moved on by a whole window, the aligned window
    start is another one. *)
Lemma aligned_after_window now now' w :
  0 < w -> now + w <= now' -> aligned now' w <> aligned now w.
Proof.
  intros Hw Hadv. unfold aligned.
  assert (now / w < now' / w); [|nia].
  apply Z.lt_le_trans with ((now + w) / w).
  - replace (now + w) with (now + 1 * w) by lia.
    rewrite Z.div_add by lia. lia.
  - apply Z.div_le_mono; lia.
Qed.

(** C8. When the stored window start of an identity is not the current
    aligned one, the limit is above zero and [datetime.fromtimestamp]
    accepts the end of the new window, the call drops the stored count, is
    allowed, and reports [remaining = limit - 1]; the entry then counts
    this one request. *)
Theorem rollover_discards_count
    fromtimestamp self identifier requests window now e :
  let lim := limit_of self requests in
  let w := window_of self window in
  let ws := aligned now w in
  w <> 0 ->
  0 < lim ->
  fromtimestamp (ws + w) = None ->
  _counters self !! identifier = Some e ->
  window_start e <> ws ->
  exists self',
    check_rate_limit fromtimestamp identifier requests window now self =
      (allowed lim (lim - 1) ws w, self')
    /\ _counters self' !! identifier = Some {| window_start := ws; count := 1 |}.
Proof.
  intros lim w ws Hw Hlim Hft He Hstale.
  destruct (check_rate_limit_step fromtimestamp self identifier requests
              window now Hw) as (self' & Hcall & Hid & _).
  fold w lim ws in Hcall, Hid. rewrite Hft in Hcall.
  assert (Hk : count_in self identifier ws = 0).
  { apply count_in_fresh. intros e' He'. congruence. }
  rewrite Hk in Hcall, Hid. clearbody lim w ws.
  destruct (decide (lim <= 0)); [lia|].
  exists self'. split; [|done].
  rewrite Hcall. unfold allowed. do 4 f_equal. lia.
Qed.

Lemma rollover_discards_count_witness :
  exists self',
    check_rate_limit utc "u1" (Some 3) (Some 60) 61 after_one_call =
      (allowed 3 2 60 60, self')
    /\ _counters self' !! "u1" = Some {| window_start := 60; count := 1 |}.
Proof.
  apply (rollover_discards_count utc after_one_call "u1" (Some 3) (Some 60) 61
           {| window_start := 0; count := 1 |}).
  - discriminate.
  - reflexivity.
  - reflexivity.
  - reflexivity.
  - discriminate.
Defined.

(** C10. With a limit of zero or less every call is refused, with
    [remaining = 0], also the first one of a fresh window, where
    [datetime.fromtimestamp] accepts the end of the window. *)
Theorem nonpositive_limit_denies
    fromtimestamp self identifier requests window now :
  let lim := limit_of self requests in
  let w := window_of self window in
  reachable self ->
  w <> 0 ->
  lim <= 0 ->
  fromtimestamp (aligned now w + w) = None ->
  exists self',
    check_rate_limit fromtimestamp identifier requests window now self =
      (denied lim (aligned now w) w, self').
Proof.
  intros lim w Hreach Hw Hlim Hft.
  destruct (check_rate_limit_step fromtimestamp self identifier requests
              window now Hw) as (self' & Hcall & _).
  fold w lim in Hcall. rewrite Hft in Hcall.
  pose proof (count_in_nonneg self identifier (aligned now w)
                (reachable_counts_nonneg self Hreach)) as Hk.
  clearbody lim w.
  destruct (decide (lim <= count_in self identifier (aligned now w))); [|lia].
  by exists self'.
Qed.

Lemma nonpositive_limit_denies_witness :
  exists self',
    check_rate_limit utc "u1" (Some 0) (Some 60) 0 (init 100 3600) =
      (denied 0 0 60, self').
Proof.
  apply (nonpositive_limit_denies utc (init 100 3600) "u1" (Some 0) (Some 60) 0).
  - apply reachable_init.
  - discriminate.
  - discriminate.
  - reflexivity.
Defined.

(** Where [datetime.fromtimestamp] does not accept the end of the window,
    the call raises its error, after it has counted the request. With a
    window of a million million seconds the first window ends past the year
    9999. *)
Example long_window_raises :
  let r := check_rate_limit utc "u1" (Some 3) (Some 1000000000000) 1762167776
             (init 100 3600) in
  fst r = Raise (ValueError "year 33658 is out of range")
  /\ _counters (snd r) !! "u1" = Some {| window_start := 0; count := 1 |}.
Proof. vm_compute. split; reflexivity. Qed.

(** The scenario of the specification: limit 3, window 60 s, identity
    ["u1"]. Calls 1 to 3 are allowed with remaining 2, 1, 0; call 4 is
    refused with the reset at the end of the window; 61 s later call 5
    is allowed with remaining 2. *)
Example scenario_u1 :
  fst (check_all utc "u1" (Some 3) (Some 60) [0; 0; 0; 0; 61] (init 100 3600)) =
    [allowed 3 2 0 60; allowed 3 1 0 60; allowed 3 0 0 60; denied 3 0 60;
     allowed 3 2 60 60].
Proof. vm_compute. reflexivity. Qed.

End RateLimitFacts.

(** ** The generation service *)

Module LLMFacts.
Import LLM LLMSpec.

(** Running a computation of the monad inside a hypothesis or the goal. *)
Ltac unmonad :=
  unfold bind, ret, raise, get, modify, try_except, external, construct,
    logger, set_huggingface, set_llamacpp_model, set_anthropic_client,
    set_openai_api_key in *.
Ltac run := repeat (unmonad; case_match; simplify_eq/=); try done.

(** [generate_text] is the adapter's response with the latency and the
    cost overwritten, and fails exactly when the adapter does. *)
Lemma generate_text_dispatch env settings request t0 t1 self :
  generate_text env settings request t0 t1 self =
    match dispatch env settings request self with
    | (Ok a, self') =>
        (Ok (set_cost (_calculate_cost (total_tokens a))
               (set_response_time_ms (int_of_Q ((t1 - t0) * 1000)) a)), self')
    | (Raise e, self') => (Raise e, self')
    end.
Proof.
  unfold generate_text, bind, ret.
  by destruct (dispatch env settings request self) as [[a|e] self'].
Qed.

Lemma _generate_huggingface_total env settings request self a self' :
  _generate_huggingface env settings request self = (Ok a, self') ->
  total_tokens a = input_tokens a + output_tokens a.
Proof. unfold _generate_huggingface. intros H. run. Qed.

Lemma _generate_llamacpp_total env settings request self a self' :
  _generate_llamacpp env settings request self = (Ok a, self') ->
  total_tokens a = input_tokens a + output_tokens a.
Proof.
  unfold _generate_llamacpp, _load_llamacpp_model. intros H. run.
Qed.

Lemma _generate_anthropic_total env request self a self' :
  _generate_anthropic env request self = (Ok a, self') ->
  total_tokens a = input_tokens a + output_tokens a.
Proof. unfold _generate_anthropic. intros H. run. Qed.

Lemma _generate_openai_usage env request self a self' :
  _generate_openai env request self = (Ok a, self') ->
  exists response,
    openai_create env (with_model (model_or request "gpt-3.5-turbo") request)
      = Ok response
    /\ input_tokens a = prompt_tokens response
    /\ output_tokens a = completion_tokens response
    /\ total_tokens a = usage_total_tokens response.
Proof. unfold _generate_openai. intros H. run. eauto. Qed.

(** C2, as the code has it. A successful [generate_text] returns
    [total_tokens = input_tokens + output_tokens] on the huggingface,
    anthropic and llama.cpp branches, where the adapter adds the two
    counts. On the openai branch the three counts are the three numbers of
    the provider's usage block: the total is the provider's own. *)
Theorem total_tokens_by_branch env settings request t0 t1 self r self' :
  generate_text env settings request t0 t1 self = (Ok r, self') ->
  (lower (llm_provider settings) <> "openai" ->
     total_tokens r = input_tokens r + output_tokens r)
  /\ (lower (llm_provider settings) = "openai" ->
       exists response,
         openai_create env (with_model (model_or request "gpt-3.5-turbo") request)
           = Ok response
         /\ input_tokens r = prompt_tokens response
         /\ output_tokens r = completion_tokens response
         /\ total_tokens r = usage_total_tokens response).
Proof.
  rewrite generate_text_dispatch.
  destruct (dispatch env settings request self) as [[a|e] s1] eqn:Hd; [|done].
  intros [= <- <-]. simpl. unfold dispatch in Hd.
  repeat case_decide; split; intros Hp; try congruence;
    eauto using _generate_huggingface_total, _generate_llamacpp_total,
      _generate_anthropic_total, _generate_openai_usage.
Qed.

Lemma total_tokens_by_branch_witness :
  total_tokens Scenario.hello =
    input_tokens Scenario.hello + output_tokens Scenario.hello.
Proof.
  refine (proj1 (total_tokens_by_branch Scenario.stub_env default_settings
            Scenario.hi 0 (1 # 4) (snd (init Scenario.stub_env default_settings))
            Scenario.hello
            (snd (generate_text Scenario.stub_env default_settings Scenario.hi
                    0 (1 # 4) (snd (init Scenario.stub_env default_settings))))
            _) _).
  - vm_compute. reflexivity.
  - vm_compute. discriminate.
Defined.

(** C2 as worded fails on the openai branch: the provider reports a total
    of 5 for 1 + 1 tokens, and 5 is the total of the result. *)
Lemma total_not_sum_on_openai :
  ~ total_is_sum Scenario.odd_total_env Scenario.openai_settings Scenario.hi
      0 (1 # 4) (snd (init Scenario.odd_total_env Scenario.openai_settings)).
Proof.
  intros H.
  assert (E : generate_text Scenario.odd_total_env Scenario.openai_settings
                Scenario.hi 0 (1 # 4)
                (snd (init Scenario.odd_total_env Scenario.openai_settings)) =
              (Ok {| text := "Hello"; input_tokens := 1; output_tokens := 1;
                     total_tokens := 5; model_used := "default";
                     provider := "openai"; response_time_ms := 250; cost := 0 |},
               snd (init Scenario.odd_total_env Scenario.openai_settings)))
    by (vm_compute; reflexivity).
  apply H in E. vm_compute in E. discriminate.
Qed.

(** The scenario of the specification: ["Hi"] against a stub adapter
    answering [("Hello", 1, 1)] gives a total of 2 and a cost of 0. *)
Example scenario_hi :
  fst (generate_text Scenario.stub_env default_settings Scenario.hi 0 (1 # 4)
         (snd (init Scenario.stub_env default_settings))) = Ok Scenario.hello.
Proof. vm_compute. reflexivity. Qed.

Lemma cost_model_zero (t : Z) (rate : Q) :
  0 == cost_model t rate <-> t = 0 \/ rate == 0.
Proof.
  unfold cost_model, Qeq, Qdiv, Qmult, Qinv, inject_Z. simpl.
  destruct rate as [n d]. simpl. nia.
Qed.

(** C3, as the code has it. The cost of a successful [generate_text] is
    0, whatever the token count and the configured price per 1k tokens;
    it is the value of the cost model exactly when the token count or the
    configured rate is zero. *)
Theorem cost_is_zero env settings request t0 t1 self r self' :
  generate_text env settings request t0 t1 self = (Ok r, self') ->
  cost r = 0%Q
  /\ (cost r == cost_model (total_tokens r) (price_per_1k_tokens settings)
       <-> total_tokens r = 0 \/ price_per_1k_tokens settings == 0).
Proof.
  rewrite generate_text_dispatch.
  destruct (dispatch env settings request self) as [[a|e] s1]; [|done].
  intros [= <- <-]. simpl. split; [done|]. apply cost_model_zero.
Qed.

Lemma cost_is_zero_witness : cost Scenario.hello = 0%Q.
Proof.
  refine (proj1 (cost_is_zero Scenario.stub_env default_settings
            Scenario.hi 0 (1 # 4) (snd (init Scenario.stub_env default_settings))
            Scenario.hello
            (snd (generate_text Scenario.stub_env default_settings Scenario.hi
                    0 (1 # 4) (snd (init Scenario.stub_env default_settings))))
            _)).
  vm_compute. reflexivity.
Defined.

(** C3 as worded fails when a price is configured: at 1 per 1k tokens the
    2 tokens of the stub cost 0, not 2/1000. *)
Lemma cost_ignores_configured_rate :
  ~ cost_follows_rate Scenario.stub_env (with_price 1 default_settings)
      Scenario.hi 0 (1 # 4)
      (snd (init Scenario.stub_env (with_price 1 default_settings))).
Proof.
  intros H.
  assert (E : generate_text Scenario.stub_env (with_price 1 default_settings)
                Scenario.hi 0 (1 # 4)
                (snd (init Scenario.stub_env (with_price 1 default_settings))) =
              (Ok Scenario.hello,
               snd (init Scenario.stub_env (with_price 1 default_settings))))
    by (vm_compute; reflexivity).
  apply H in E. vm_compute in E. discriminate.
Qed.

(** C9, as the code has it. [generate_text] computes the latency, from
    its two clock readings, and the cost, and overwrites what the adapter
    put in these two fields. The total token count of the result is the
    one the adapter returned; the text, the two token counts and the names
    are the adapter's too. *)
Theorem orchestrator_derives_latency_and_cost
    env settings request t0 t1 self a self' :
  dispatch env settings request self = (Ok a, self') ->
  exists r,
    generate_text env settings request t0 t1 self = (Ok r, self')
    /\ response_time_ms r = int_of_Q ((t1 - t0) * 1000)
    /\ cost r = 0%Q
    /\ total_tokens r = total_tokens a
    /\ same_raw_outputs r a.
Proof.
  intros Hd. rewrite generate_text_dispatch, Hd.
  eexists. split; [reflexivity|]. by repeat split.
Qed.

Lemma orchestrator_derives_latency_and_cost_witness :
  exists r,
    generate_text Scenario.odd_total_env Scenario.openai_settings Scenario.hi
      0 (1 # 4) (empty_service []) = (Ok r, empty_service [])
    /\ response_time_ms r = 250
    /\ cost r = 0%Q
    /\ total_tokens r = 5
    /\ same_raw_outputs r
         {| text := "Hello"; input_tokens := 1; output_tokens := 1;
            total_tokens := 5; model_used := "default"; provider := "openai";
            response_time_ms := 0; cost := 0 |}.
Proof.
  refine (orchestrator_derives_latency_and_cost Scenario.odd_total_env
            Scenario.openai_settings Scenario.hi 0 (1 # 4) (empty_service [])
            {| text := "Hello"; input_tokens := 1; output_tokens := 1;
               total_tokens := 5; model_used := "default"; provider := "openai";
               response_time_ms := 0; cost := 0 |}
            (empty_service []) _).
  vm_compute. reflexivity.
Defined.

(** C9 as worded fails for the total: two hosted back ends that answer
    the same text and the same two counts, one reporting a total of 2 and
    one a total of 5, give results with different totals. *)
Lemma total_taken_from_adapter : ~ derived_fields_independent.
Proof.
  intros H.
  destruct (H Scenario.stub_env Scenario.odd_total_env Scenario.openai_settings
              Scenario.hi 0%Q (1 # 4)%Q (empty_service [])
              {| text := "Hello"; input_tokens := 1; output_tokens := 1;
                 total_tokens := 2; model_used := "default"; provider := "openai";
                 response_time_ms := 0; cost := 0 |}
              {| text := "Hello"; input_tokens := 1; output_tokens := 1;
                 total_tokens := 5; model_used := "default"; provider := "openai";
                 response_time_ms := 0; cost := 0 |}
              (empty_service []) (empty_service []))
    as (r1 & r2 & G1 & G2 & Ht & _).
  - vm_compute. reflexivity.
  - vm_compute. reflexivity.
  - by repeat split.
  - vm_compute in G1, G2. simplify_eq.
Qed.

(** Whatever happens while the models are initialized is caught. *)
Lemma _initialize_models_returns env settings self :
  fst (_initialize_models env settings self) = Ok tt.
Proof.
  unfold _initialize_models, try_except.
  match goal with |- context [match ?c self with _ => _ end] =>
    by destruct (c self) as [[[]|e] s1] end.
Qed.

Lemma _load_llamacpp_model_unmet env settings self :
  llama_cpp_imported env && truthy (llm_model_path settings)
    && path_exists env (default "" (llm_model_path settings)) = false ->
  exists msg,
    _load_llamacpp_model env settings self = (Raise (RuntimeError msg), self).
Proof.
  unfold _load_llamacpp_model. intros H.
  destruct (llama_cpp_imported env); simpl in *; [|by eexists].
  destruct (truthy (llm_model_path settings)); simpl in *; [|by eexists].
  rewrite H. simpl. by eexists.
Qed.

(** C5, as the code has it. With the prerequisite of the provider missing
    (the configured one, or llama.cpp for a name that is not known),
    constructing the service does not raise: the error is caught and
    logged, and the service is left without a model. Under llama.cpp the
    error is raised at call time: [generate_text] tries the load again,
    raises its [RuntimeError] and leaves the service as it was, so that
    every call does. *)
Theorem missing_prerequisite_raises_at_call_time env settings :
  prerequisite_met env settings = false ->
  fst (init env settings) = Ok tt
  /\ (exists e,
        last (log (snd (init env settings))) =
          Some (ERROR, "Failed to initialize LLM service: " ++ str_exn e))
  /\ llamacpp_model (snd (init env settings)) = None
  /\ pipelines (snd (init env settings)) = ∅
  /\ anthropic_client (snd (init env settings)) = None
  /\ (lower (llm_provider settings) <> "huggingface" ->
      lower (llm_provider settings) <> "openai" ->
      lower (llm_provider settings) <> "anthropic" ->
      forall request t0 t1, exists msg,
        generate_text env settings request t0 t1 (snd (init env settings)) =
          (Raise (RuntimeError msg), snd (init env settings))).
Proof.
  intros Hmiss. split; [apply _initialize_models_returns|].
  unfold prerequisite_met in Hmiss.
  unfold init, _initialize_models.
  destruct (decide (lower (llm_provider settings) = "huggingface")) as [Hhf|Hhf].
  { unfold _load_huggingface_model. rewrite Hmiss. simpl.
    split; [by eexists (RuntimeError _)|]. by do 3 (split; [done|]). }
  destruct (decide (lower (llm_provider settings) = "openai")) as [Hoa|Hoa].
  { unfold _initialize_openai.
    destruct (openai_imported env); simpl in Hmiss; [rewrite Hmiss|]; simpl;
      (split; [by eexists (ValueError _) || by eexists (RuntimeError _)|]);
      by do 3 (split; [done|]). }
  destruct (decide (lower (llm_provider settings) = "anthropic")) as [Han|Han].
  { unfold _initialize_anthropic.
    destruct (anthropic_imported env); simpl in Hmiss; [rewrite Hmiss|]; simpl;
      (split; [by eexists (ValueError _) || by eexists (RuntimeError _)|]);
      by do 3 (split; [done|]). }
  assert (Hgen : forall l request t0 t1, exists msg,
            generate_text env settings request t0 t1 (empty_service l) =
              (Raise (RuntimeError msg), empty_service l)).
  { intros l request t0 t1. rewrite generate_text_dispatch. unfold dispatch.
    rewrite !decide_False by done.
    destruct (_load_llamacpp_model_unmet env settings (empty_service l) Hmiss)
      as [msg Hload].
    unfold _generate_llamacpp, bind, get. simpl. rewrite Hload. by eexists. }
  destruct (is_llamacpp_name (lower (llm_provider settings))).
  - destruct (_load_llamacpp_model_unmet env settings (empty_service []) Hmiss)
      as [msg Hload].
    unfold try_except. rewrite Hload. simpl.
    split; [by exists (RuntimeError msg)|].
    do 3 (split; [done|]). intros _ _ _. apply Hgen.
  - unfold try_except, bind, logger at 1, modify. simpl.
    match goal with |- context [_load_llamacpp_model env settings ?s] =>
      destruct (_load_llamacpp_model_unmet env settings s Hmiss) as [msg Hload]
    end.
    rewrite Hload. simpl.
    split; [by exists (RuntimeError msg)|].
    do 3 (split; [done|]). intros _ _ _. apply Hgen.
Qed.

Lemma missing_prerequisite_raises_at_call_time_witness :
  fst (init Scenario.no_model_file_env default_settings) = Ok tt.
Proof.
  refine (proj1 (missing_prerequisite_raises_at_call_time
                   Scenario.no_model_file_env default_settings _)).
  vm_compute. reflexivity.
Defined.

(** C5 as worded fails: with llama.cpp configured and no model file, the
    service is constructed without an exception. *)
Lemma missing_model_file_not_fatal :
  ~ fails_fast Scenario.no_model_file_env default_settings.
Proof.
  intros H. destruct H as (e & self & E).
  - vm_compute. reflexivity.
  - vm_compute. reflexivity.
  - apply (f_equal fst) in E. vm_compute in E. discriminate.
Qed.

(** The records [_generate_llamacpp] logs are those of the load it may
    attempt: none of them is a warning. *)
Lemma _generate_llamacpp_log env settings request self :
  exists l,
    log (snd (_generate_llamacpp env settings request self)) = (log self ++ l)%list
    /\ existsb is_warning l = false.
Proof.
  unfold _generate_llamacpp, _load_llamacpp_model.
  destruct self as [ms ts ps [llm|] ac ok lg]; unmonad; simpl.
  - exists []. rewrite app_nil_r.
    split; [|done]. by repeat (case_match; simplify_eq/=).
  - repeat (unmonad; case_match; simplify_eq/=);
      try (by exists []; rewrite app_nil_r);
      try (by eexists [_]);
      try (by eexists [_; _]; rewrite <- app_assoc).
Qed.

(** C6, as the code has it. For a provider name that is not known, once
    lowered: initialization logs the warning and goes on as for llama.cpp,
    and does not raise; [generate_text] uses the llama.cpp adapter, so it
    fails only where llama.cpp fails, and logs no warning of its own. *)
Theorem unknown_provider_falls_back env settings :
  known_provider (lower (llm_provider settings)) = false ->
  let warning :=
    (WARNING, "Unknown LLM provider '" ++ llm_provider settings
              ++ "', defaulting to llama.cpp") in
  init env settings =
    _initialize_models env (with_provider "llamacpp" settings)
      (empty_service [warning])
  /\ fst (init env settings) = Ok tt
  /\ In warning (log (snd (init env settings)))
  /\ (forall request t0 t1 self,
        generate_text env settings request t0 t1 self =
          generate_text env (with_provider "llamacpp" settings) request t0 t1 self
        /\ existsb is_warning
             (drop (length (log self))
                (log (snd (generate_text env settings request t0 t1 self))))
           = false).
Proof.
  intros Hunknown warning. unfold known_provider in Hunknown.
  apply orb_false_elim in Hunknown as [Hunknown Hll].
  apply orb_false_elim in Hunknown as [Hunknown Han].
  apply orb_false_elim in Hunknown as [Hhf Hoa].
  apply bool_decide_eq_false in Hhf, Hoa, Han.
  assert (Hinit : init env settings =
            _initialize_models env (with_provider "llamacpp" settings)
              (empty_service [warning])).
  { unfold init, _initialize_models. simpl.
    rewrite !decide_False by done. rewrite Hll.
    unfold try_except, bind, logger at 1, modify. simpl. done. }
  split; [done|]. split; [apply _initialize_models_returns|]. split.
  - rewrite Hinit. unfold _initialize_models, try_except. simpl.
    unfold _load_llamacpp_model. run; set_solver.
  - intros request t0 t1 self.
    rewrite !generate_text_dispatch. unfold dispatch. simpl.
    rewrite !decide_False by done.
    change (_generate_llamacpp env (with_provider "llamacpp" settings))
      with (_generate_llamacpp env settings).
    split; [done|].
    destruct (_generate_llamacpp_log env settings request self) as (l & Hl & Hw).
    destruct (_generate_llamacpp env settings request self) as [[a|e] s1];
      simpl in *; by rewrite Hl, drop_app_length.
Qed.

Lemma unknown_provider_falls_back_witness :
  fst (init Scenario.stub_env (with_provider "Mistral" default_settings)) = Ok tt.
Proof.
  refine (proj1 (proj2 (unknown_provider_falls_back Scenario.stub_env
                          (with_provider "Mistral" default_settings) _))).
  vm_compute. reflexivity.
Defined.

(** C6 as worded fails for dispatch: under the name ["Mistral"] the
    request is served by llama.cpp, and no warning is logged. *)
Lemma dispatch_falls_back_silently :
  ~ dispatch_warns Scenario.stub_env (with_provider "Mistral" default_settings)
      Scenario.hi 0 (1 # 4) (empty_service []).
Proof.
  intros H. unfold dispatch_warns in H.
  assert (E : known_provider (lower "Mistral") = false) by (vm_compute; reflexivity).
  apply H in E. vm_compute in E. discriminate.
Qed.

(** The match on the name is on its lowered form. *)
Example provider_name_case :
  known_provider (lower "OpenAI") = true /\ known_provider (lower "LLaMA.cpp") = true.
Proof. by vm_compute. Qed.

End LLMFacts.

(** ** The endpoint *)

Module MainFacts.
Import Main MainSpec.

Ltac unmonad :=
  unfold bind, ret, raise, get, modify, try_except, on_rate_limit, on_llm,
    on_db, zoom, external, logger, RateLimit.enforce_rate_limit,
    Analytics.track_usage, Analytics.session in *.
Ltac run := repeat (unmonad; case_match; simplify_eq/=); try done.

(** The scenario of the specification, through the endpoint. *)
Example scenario_endpoint :
  generate_text MainScenario.stub_env default_settings MainScenario.hi
    MainScenario.user1 0 0 (1 # 4)
    (startup MainScenario.stub_env default_settings) =
  (Ok {| text := "Hello"; usage_total_tokens := 2; usage_cost := 0;
         model_name := "TinyLlama-1.1B-Chat-v1.0.Q4_K_M.gguf";
         provider := "llamacpp" |},
   snd (generate_text MainScenario.stub_env default_settings MainScenario.hi
          MainScenario.user1 0 0 (1 # 4)
          (startup MainScenario.stub_env default_settings))).
Proof. vm_compute. reflexivity. Qed.

(** The one row that call has stored. *)
Example scenario_endpoint_row :
  usage_table
    (snd (generate_text MainScenario.stub_env default_settings MainScenario.hi
            MainScenario.user1 0 0 (1 # 4)
            (startup MainScenario.stub_env default_settings))) =
  [MainScenario.hello_row].
Proof. vm_compute. reflexivity. Qed.

(** [track_usage] stores one row and returns it, or raises: before the
    commit, with nothing stored, or at the refresh, with the row stored. *)
Lemma track_usage_rows store uid data rows r rows' :
  Analytics.track_usage store uid data rows = (r, rows') ->
  match r with
  | Ok u =>
      rows' = (rows ++ [u])%list
      /\ Analytics.add store u = None
      /\ Analytics.commit store u = None
      /\ Analytics.refresh store u = None
  | Raise e =>
      rows' = rows
      \/ exists u,
           rows' = (rows ++ [u])%list
           /\ Analytics.commit store u = None
           /\ Analytics.refresh store u = Some e
  end.
Proof. intros H. run; eauto. Qed.

(** The rate limiter touches nothing but its own state. *)
Lemma on_rate_limit_frame {A} (c : M RateLimit.RateLimitService A) w r w1 :
  on_rate_limit c w = (r, w1) ->
  usage_table w1 = usage_table w
  /\ llm_service w1 = llm_service w
  /\ log w1 = log w.
Proof.
  unfold on_rate_limit, zoom. destruct (c (rate_limit_service w)).
  by intros [= _ <-].
Qed.

(** The endpoint past the rate limiter, for a generation that succeeds: the
    usage table is as [track_usage] leaves it. *)
Lemma generate_text_table
    env settings body current_user now t0 t1 w info w1 response llm' r rows' :
  on_rate_limit
    (RateLimit.enforce_rate_limit (fromtimestamp env)
       (rate_limit_key current_user) None None now) w
    = (Ok info, w1) ->
  LLM.generate_text (llm_env env) settings (gen_request body) t0 t1
    (llm_service w1) = (Ok response, llm') ->
  Analytics.track_usage (store env) (id current_user) (usage_data response)
    (usage_table w1) = (r, rows') ->
  usage_table (snd (generate_text env settings body current_user now t0 t1 w))
  = rows'.
Proof.
  intros Hadm Hgen Htrack.
  unfold generate_text, bind at 1. rewrite Hadm.
  unfold try_except, bind at 1, on_llm at 1, zoom at 1. rewrite Hgen.
  unfold bind at 1, on_db at 1, zoom at 1. simpl. rewrite Htrack.
  destruct r as [u|e]; simpl; [|done].
  unfold bind, external, logger, modify, raise, ret.
  destruct (update_usage env current_user _); [done|].
  by destruct (db_commit env).
Qed.




(** C7 as worded fails: with a data base whose commit of the usage row
    fails, the caller is let in, the generation succeeds, and the call
    leaves no row in the usage table. *)
Lemma successful_dispatch_without_row :
  ~ one_row_per_successful_dispatch MainScenario.failing_sink_env
      default_settings MainScenario.hi MainScenario.user1 0 0 (1 # 4)
      (startup MainScenario.failing_sink_env default_settings).
Proof.
  intros H.
  destruct (H {| RateLimit.limit := 100; RateLimit.remaining := 99;
                 RateLimit.reset := 3600; RateLimit.window := 3600 |}
              (snd (on_rate_limit
                      (RateLimit.enforce_rate_limit RateLimit.utc
                         (rate_limit_key MainScenario.user1) None None 0)
                      (startup MainScenario.failing_sink_env default_settings)))
              Scenario.hello
              (llm_service (startup MainScenario.failing_sink_env default_settings)))
    as (u & E).
  - vm_compute. reflexivity.
  - vm_compute. reflexivity.
  - vm_compute in E. discriminate.
Qed.

(** C7, as the code has it. A call refused by the rate limiter is answered
    with status 429 before anything else runs: the usage table, the
    generation service and the log are as they were. A call answered with
    a result has added one row to the usage table. When the caller is let
    in and the generation succeeds, the usage table is as [track_usage]
    leaves it, so a write that raises before its commit leaves no row. No
    call adds more than one row. *)
Theorem usage_rows_per_call env settings body current_user now t0 t1 w :
  (forall info rl',
     RateLimit.check_rate_limit (fromtimestamp env)
       (rate_limit_key current_user) None None now
       (rate_limit_service w) = (Ok (false, info), rl') ->
     exists w',
       generate_text env settings body current_user now t0 t1 w =
         (Raise (HTTPException 429 "Rate limit exceeded"), w')
       /\ usage_table w' = usage_table w
       /\ llm_service w' = llm_service w
       /\ log w' = log w)
  /\ (forall resp w',
       generate_text env settings body current_user now t0 t1 w = (Ok resp, w') ->
       exists u, usage_table w' = (usage_table w ++ [u])%list)
  /\ (forall info w1 response llm' r rows',
       on_rate_limit
         (RateLimit.enforce_rate_limit (fromtimestamp env)
            (rate_limit_key current_user) None None now) w
         = (Ok info, w1) ->
       LLM.generate_text (llm_env env) settings (gen_request body) t0 t1
         (llm_service w1) = (Ok response, llm') ->
       Analytics.track_usage (store env) (id current_user)
         (usage_data response) (usage_table w) = (r, rows') ->
       usage_table
         (snd (generate_text env settings body current_user now t0 t1 w))
       = rows'
       /\ match r with
          | Ok u => rows' = (usage_table w ++ [u])%list
          | Raise e =>
              rows' = usage_table w
              \/ exists u,
                   rows' = (usage_table w ++ [u])%list
                   /\ Analytics.commit (store env) u = None
                   /\ Analytics.refresh (store env) u = Some e
          end)
  /\ (forall r w',
       generate_text env settings body current_user now t0 t1 w = (r, w') ->
       usage_table w' = usage_table w
       \/ exists u, usage_table w' = (usage_table w ++ [u])%list).
Proof.
  split; [|split; [|split]].
  - intros info rl' Hdenied.
    unfold generate_text, bind at 1, on_rate_limit, zoom,
      RateLimit.enforce_rate_limit, bind at 1.
    rewrite Hdenied. simpl. by eexists.
  - intros resp w' H. unfold generate_text in H.
    unfold Analytics.track_usage in H. run. by eexists.
  - intros info w1 response llm' r rows' Hadm Hgen Htrack.
    destruct (on_rate_limit_frame _ _ _ _ Hadm) as (Htable & _).
    rewrite <- Htable in Htrack.
    split; [by eapply generate_text_table|].
    pose proof (track_usage_rows _ _ _ _ _ _ Htrack) as Hrows.
    rewrite Htable in Hrows. destruct r; [by destruct Hrows|done].
  - intros r w' H. unfold generate_text in H.
    unfold Analytics.track_usage in H. run; eauto.
Qed.

Lemma usage_rows_per_call_witness :
  (exists w',
     generate_text MainScenario.stub_env MainScenario.zero_limit_settings
       MainScenario.hi MainScenario.user1 0 0 (1 # 4)
       (startup MainScenario.stub_env MainScenario.zero_limit_settings) =
       (Raise (HTTPException 429 "Rate limit exceeded"), w')
     /\ usage_table w' = []
     /\ llm_service w' =
          llm_service (startup MainScenario.stub_env MainScenario.zero_limit_settings)
     /\ log w' = [])
  /\ (exists u,
       usage_table
         (snd (generate_text MainScenario.stub_env default_settings MainScenario.hi
                 MainScenario.user1 0 0 (1 # 4)
                 (startup MainScenario.stub_env default_settings))) =
       [u])
  /\ usage_table
       (snd (generate_text MainScenario.failing_sink_env default_settings
               MainScenario.hi MainScenario.user1 0 0 (1 # 4)
               (startup MainScenario.failing_sink_env default_settings))) = []
  /\ usage_table
       (snd (generate_text MoreScenario.failing_refresh_env default_settings
               MainScenario.hi MainScenario.user1 0 0 (1 # 4)
               (startup MoreScenario.failing_refresh_env default_settings))) =
     [MainScenario.hello_row].
Proof.
  split; [|split; [|split]].
  - refine (proj1 (usage_rows_per_call MainScenario.stub_env
                     MainScenario.zero_limit_settings MainScenario.hi
                     MainScenario.user1 0 0 (1 # 4)
                     (startup MainScenario.stub_env MainScenario.zero_limit_settings))
              {| RateLimit.limit := 0; RateLimit.remaining := 0;
                 RateLimit.reset := 3600; RateLimit.window := 3600 |}
              (snd (RateLimit.check_rate_limit RateLimit.utc
                      (rate_limit_key MainScenario.user1) None None 0
                      (rate_limit_service
                         (startup MainScenario.stub_env
                            MainScenario.zero_limit_settings))))
              _).
    vm_compute. reflexivity.
  - refine (proj1 (proj2 (usage_rows_per_call MainScenario.stub_env
                     default_settings MainScenario.hi MainScenario.user1
                     0 0 (1 # 4)
                     (startup MainScenario.stub_env default_settings)))
              {| text := "Hello"; usage_total_tokens := 2; usage_cost := 0;
                 model_name := "TinyLlama-1.1B-Chat-v1.0.Q4_K_M.gguf";
                 provider := "llamacpp" |}
              (snd (generate_text MainScenario.stub_env default_settings
                      MainScenario.hi MainScenario.user1 0 0 (1 # 4)
                      (startup MainScenario.stub_env default_settings)))
              _).
    vm_compute. reflexivity.
  - refine (proj1 (proj1 (proj2 (proj2 (usage_rows_per_call
                     MainScenario.failing_sink_env default_settings
                     MainScenario.hi MainScenario.user1 0 0 (1 # 4)
                     (startup MainScenario.failing_sink_env default_settings))))
              {| RateLimit.limit := 100; RateLimit.remaining := 99;
                 RateLimit.reset := 3600; RateLimit.window := 3600 |}
              (snd (on_rate_limit
                      (RateLimit.enforce_rate_limit RateLimit.utc
                         (rate_limit_key MainScenario.user1) None None 0)
                      (startup MainScenario.failing_sink_env default_settings)))
              Scenario.hello
              (llm_service (startup MainScenario.failing_sink_env default_settings))
              (Raise (ExternalError "database is locked")) [] _ _ _)).
    + vm_compute. reflexivity.
    + vm_compute. reflexivity.
    + vm_compute. reflexivity.
  - refine (proj1 (proj1 (proj2 (proj2 (usage_rows_per_call
                     MoreScenario.failing_refresh_env default_settings
                     MainScenario.hi MainScenario.user1 0 0 (1 # 4)
                     (startup MoreScenario.failing_refresh_env default_settings))))
              {| RateLimit.limit := 100; RateLimit.remaining := 99;
                 RateLimit.reset := 3600; RateLimit.window := 3600 |}
              (snd (on_rate_limit
                      (RateLimit.enforce_rate_limit RateLimit.utc
                         (rate_limit_key MainScenario.user1) None None 0)
                      (startup MoreScenario.failing_refresh_env default_settings)))
              Scenario.hello
              (llm_service (startup MoreScenario.failing_refresh_env default_settings))
              (Raise (ExternalError "connection lost"))
              [MainScenario.hello_row] _ _ _)).
    + vm_compute. reflexivity.
    + vm_compute. reflexivity.
    + vm_compute. reflexivity.
Defined.

End MainFacts.

(** ** More on the admission controller *)

Module RateLimitMore.
Import RateLimit RateLimitSpec RateLimitTrace.

(** An answer of the limiter, for a window above zero: it names the limit
    and the window of the call, its reset instant lies after the clock
    reading and at most one window away, and its remaining quota is not
    negative, and is zero when the call is refused. *)
Theorem answer_bounds ft self identifier requests window now b info self' :
  let lim := limit_of self requests in
  let w := window_of self window in
  0 < w ->
  check_rate_limit ft identifier requests window now self
    = (Ok (b, info), self') ->
  limit info = lim
  /\ RateLimit.window info = w
  /\ now < reset info <= now + w
  /\ 0 <= remaining info
  /\ (b = false -> remaining info = 0).
Proof.
  intros lim w Hw Hcall.
  assert (Hnz : w <> 0) by (clearbody w; lia).
  destruct (RateLimitFacts.check_rate_limit_step ft self identifier requests window
              now Hnz) as (s1 & Hstep & _).
  fold lim w in Hstep. rewrite Hstep in Hcall.
  destruct (ft (aligned now w + w)); [done|].
  assert (Hws : aligned now w <= now < aligned now w + w).
  { unfold aligned. clearbody w. pose proof (Z.div_mod now w Hnz).
    pose proof (Z.mod_pos_bound now w Hw). lia. }
  clearbody lim w.
  destruct (decide (lim <= count_in self identifier (aligned now w)));
    unfold denied, allowed in Hcall; simplify_eq/=;
    repeat split; try lia; done.
Qed.

Lemma answer_bounds_witness :
  limit (mkInfo 3 2 60 60) = 3
  /\ RateLimit.window (mkInfo 3 2 60 60) = 60
  /\ 59 < reset (mkInfo 3 2 60 60) <= 59 + 60
  /\ 0 <= remaining (mkInfo 3 2 60 60)
  /\ (true = false -> remaining (mkInfo 3 2 60 60) = 0).
Proof.
  refine (answer_bounds utc (init 100 3600) "u1" (Some 3) (Some 60) 59 true
            (mkInfo 3 2 60 60)
            (snd (check_rate_limit utc "u1" (Some 3) (Some 60) 59 (init 100 3600)))
            _ _).
  - reflexivity.
  - vm_compute. reflexivity.
Defined.

(** A call reads the defaults and the entry of its identity, nothing
    else. *)
Lemma check_rate_limit_agree ft id rq wd t s1 s2 :
  agree_on id s1 s2 ->
  fst (check_rate_limit ft id rq wd t s1)
    = fst (check_rate_limit ft id rq wd t s2)
  /\ agree_on id (snd (check_rate_limit ft id rq wd t s1))
                 (snd (check_rate_limit ft id rq wd t s2)).
Proof.
  intros (Hrq & Hwd & Hid). unfold check_rate_limit, _get_window_start, agree_on.
  rewrite Hrq, Hwd, Hid.
  destruct (decide (default (default_window s2) wd = 0)); [done|].
  destruct (_counters s2 !! id) as [e|] eqn:He; simpl;
    repeat (case_decide; simpl); destruct (ft _); simpl;
    rewrite ?lookup_insert_eq; repeat split; congruence.
Qed.

(** A call leaves the defaults and the entries of the other identities as
    they are. *)
Lemma check_rate_limit_frame ft id j rq wd t self :
  j <> id -> agree_on id (snd (check_rate_limit ft j rq wd t self)) self.
Proof.
  intros Hj. unfold check_rate_limit, _get_window_start, agree_on.
  destruct (decide (default (default_window self) wd = 0)); [done|].
  destruct (_counters self !! j) as [e|] eqn:He; simpl;
    repeat (case_decide; simpl); destruct (ft _); simpl;
    rewrite ?lookup_insert_ne by done; done.
Qed.

Lemma agree_on_trans id s1 s2 s3 :
  agree_on id s1 s2 -> agree_on id s2 s3 -> agree_on id s1 s3.
Proof. unfold agree_on. intros (-> & -> & ->) (-> & -> & ->). done. Qed.

Lemma run_agree ft id calls : forall s1 s2,
  agree_on id s1 s2 ->
  answers_to id (fst (run ft calls s1)) =
    map snd (fst (run ft (List.filter (is_for id) calls) s2)).
Proof.
  induction calls as [|c calls IH]; intros s1 s2 Hagree; [done|].
  cbn [run List.filter].
  destruct (check_rate_limit ft (identifier c) (requests c) (RateLimitTrace.window c)
              (now c) s1) as [r1 s1'] eqn:H1.
  destruct (run ft calls s1') as [rs1 s1''] eqn:Hr1.
  unfold answers_to. cbn [fst List.filter map].
  destruct (is_for id c) eqn:Hfor; cbn [fst snd map].
  - apply bool_decide_eq_true in Hfor. cbn [run].
    destruct (check_rate_limit ft (identifier c) (requests c) (RateLimitTrace.window c)
                (now c) s2) as [r2 s2'] eqn:H2.
    destruct (run ft (List.filter (is_for id) calls) s2') as [rs2 s2''] eqn:Hr2.
    cbn [fst map snd]. rewrite Hfor in H1, H2.
    destruct (check_rate_limit_agree ft id (requests c) (RateLimitTrace.window c)
                (now c) s1 s2 Hagree) as [Hres Hst].
    rewrite H1, H2 in Hres, Hst. simpl in Hres, Hst. subst r2. f_equal.
    specialize (IH s1' s2' Hst). rewrite Hr1, Hr2 in IH. apply IH.
  - apply bool_decide_eq_false in Hfor.
    assert (Hst : agree_on id s1' s2).
    { eapply agree_on_trans; [|exact Hagree].
      replace s1' with
        (snd (check_rate_limit ft (identifier c) (requests c)
                (RateLimitTrace.window c) (now c) s1)) by (by rewrite H1).
      by apply check_rate_limit_frame. }
    specialize (IH s1' s2 Hst). rewrite Hr1 in IH. apply IH.
Qed.

(** The identities do not interfere: in any sequence of calls, whatever the
    identities, limits, windows and clock readings of the others, the
    answers given to one identity are those its own calls get when they
    are made alone. *)
Theorem identities_do_not_interfere ft id calls self :
  answers_to id (fst (run ft calls self)) =
    map snd (fst (run ft (List.filter (is_for id) calls) self)).
Proof. by apply run_agree. Qed.

Lemma check_all_app ft id rq wd l1 l2 self :
  check_all ft id rq wd (l1 ++ l2) self =
    ((fst (check_all ft id rq wd l1 self)
      ++ fst (check_all ft id rq wd l2 (snd (check_all ft id rq wd l1 self))))%list,
     snd (check_all ft id rq wd l2 (snd (check_all ft id rq wd l1 self)))).
Proof.
  revert self. induction l1 as [|t l1 IH]; intros self; simpl.
  - by destruct (check_all ft id rq wd l2 self).
  - destruct (check_rate_limit ft id rq wd t self) as [r s1].
    rewrite IH. by destruct (check_all ft id rq wd l1 s1).
Qed.

Lemma check_rate_limit_defaults ft id rq wd t self :
  default_requests (snd (check_rate_limit ft id rq wd t self))
    = default_requests self
  /\ default_window (snd (check_rate_limit ft id rq wd t self)) = default_window self.
Proof.
  unfold check_rate_limit, _get_window_start.
  destruct (decide (default (default_window self) wd = 0)); [done|].
  destruct (_counters self !! id) as [e|]; simpl;
    repeat (case_decide; simpl); destruct (ft _); done.
Qed.

Lemma check_all_defaults ft id rq wd nows : forall self,
  default_requests (snd (check_all ft id rq wd nows self)) = default_requests self
  /\ default_window (snd (check_all ft id rq wd nows self)) = default_window self.
Proof.
  induction nows as [|t nows IH]; intros self; [done|]. simpl.
  pose proof (check_rate_limit_defaults ft id rq wd t self) as Hd.
  destruct (check_rate_limit ft id rq wd t self) as [r s1].
  specialize (IH s1). destruct (check_all ft id rq wd nows s1) as [rs s2].
  simpl in *. destruct IH, Hd. split; congruence.
Qed.

(** After calls inside one window the entry of the identity is of that
    window. *)
Lemma check_all_entry ft id rq wd ws nows : forall self,
  window_of self wd <> 0 ->
  ft (ws + window_of self wd) = None ->
  Forall (fun t => aligned t (window_of self wd) = ws) nows ->
  nows <> [] ->
  exists e,
    _counters (snd (check_all ft id rq wd nows self)) !! id = Some e
    /\ window_start e = ws.
Proof.
  induction nows as [|t nows IH]; intros self Hw Hft Hin Hne; [done|].
  apply Forall_cons in Hin as [Ht Hin]. simpl.
  destruct (RateLimitFacts.check_rate_limit_step ft self id rq wd t Hw)
    as (s1 & Hcall & Hid & _ & Hrq & Hwd).
  rewrite Hcall, Ht in *.
  destruct nows as [|t' nows'].
  - simpl. by eexists.
  - assert (Hw1 : window_of s1 wd = window_of self wd)
      by (unfold window_of; by rewrite Hwd).
    destruct (IH s1) as (e & He & Hws);
      [by rewrite Hw1|by rewrite Hw1|by rewrite Hw1|done|].
    destruct (check_all ft id rq wd (t' :: nows') s1) as [rs s2]. simpl in *.
    by exists e.
Qed.

(** The fixed window is not a sliding one: [limit] calls at the end of a
    window and [limit] calls at the start of the next are all allowed, so
    that twice the limit can pass in as short a time as the clock takes to
    cross the boundary. Both windows end at instants that
    [datetime.fromtimestamp] accepts. *)
Theorem boundary_burst ft self identifier requests window ws1 ws2 nows1 nows2 :
  let lim := limit_of self requests in
  let w := window_of self window in
  0 < lim ->
  w <> 0 ->
  ws1 <> ws2 ->
  ft (ws1 + w) = None ->
  ft (ws2 + w) = None ->
  (forall e, _counters self !! identifier = Some e -> window_start e <> ws1) ->
  Forall (fun now => aligned now w = ws1) nows1 ->
  Forall (fun now => aligned now w = ws2) nows2 ->
  length nows1 = Z.to_nat lim ->
  length nows2 = Z.to_nat lim ->
  fst (check_all ft identifier requests window (nows1 ++ nows2) self) =
    (map (fun i => allowed lim (lim - 1 - Z.of_nat i) ws1 w) (seq 0 (Z.to_nat lim))
     ++ map (fun i => allowed lim (lim - 1 - Z.of_nat i) ws2 w)
          (seq 0 (Z.to_nat lim)))%list.
Proof.
  intros lim w Hlim Hw Hws Hft1 Hft2 Hfresh Hin1 Hin2 Hlen1 Hlen2.
  rewrite check_all_app. cbn [fst].
  assert (Hout : forall ws,
            map (fun i => outcome lim ws w (0 + Z.of_nat i)) (seq 0 (Z.to_nat lim)) =
            map (fun i => allowed lim (lim - 1 - Z.of_nat i) ws w)
              (seq 0 (Z.to_nat lim))).
  { intros ws. clearbody lim w. apply map_ext_in. intros i Hi%in_seq.
    unfold outcome, allowed. case_decide; [lia|]. do 3 f_equal. lia. }
  f_equal.
  - rewrite (RateLimitFacts.check_all_in_window ft identifier requests window
               ws1 nows1 self Hw Hft1 Hin1);
      rewrite (RateLimitFacts.count_in_fresh self identifier ws1 Hfresh);
      [|fold lim; lia].
    rewrite Hlen1. apply Hout.
  - set (s1 := snd (check_all ft identifier requests window nows1 self)).
    destruct (check_all_defaults ft identifier requests window nows1 self)
      as [Hrq Hwd]. fold s1 in Hrq, Hwd.
    assert (Hlim1 : limit_of s1 requests = lim)
      by (unfold limit_of, lim; by rewrite Hrq).
    assert (Hw1 : window_of s1 window = w)
      by (unfold window_of, w; by rewrite Hwd).
    assert (Hne : nows1 <> []).
    { intros ->. simpl in Hlen1. clearbody lim. lia. }
    destruct (check_all_entry ft identifier requests window ws1 nows1 self
                Hw Hft1 Hin1 Hne) as (e & He & Hwe). fold s1 in He.
    assert (Hk : count_in s1 identifier ws2 = 0).
    { apply RateLimitFacts.count_in_fresh. intros e' He'. congruence. }
    rewrite (RateLimitFacts.check_all_in_window ft identifier requests window
               ws2 nows2 s1); rewrite ?Hlim1, ?Hw1, ?Hk; try done; [|lia].
    rewrite Hlen2. apply Hout.
Qed.

Lemma boundary_burst_witness :
  fst (check_all utc "u1" (Some 3) (Some 60) ([59; 59; 59] ++ [60; 60; 60])
         (init 100 3600)) =
    [allowed 3 2 0 60; allowed 3 1 0 60; allowed 3 0 0 60;
     allowed 3 2 60 60; allowed 3 1 60 60; allowed 3 0 60 60].
Proof.
  refine (boundary_burst utc (init 100 3600) "u1" (Some 3) (Some 60) 0 60
            [59; 59; 59] [60; 60; 60] _ _ _ _ _ _ _ _ _ _).
  - reflexivity.
  - discriminate.
  - discriminate.
  - reflexivity.
  - reflexivity.
  - intros e He. simpl in He. rewrite lookup_empty in He. discriminate.
  - repeat constructor.
  - repeat constructor.
  - reflexivity.
  - reflexivity.
Defined.

(** Once the count of an identity has reached the limit, every further call
    in the same window is refused, and none of them is counted, where
    [datetime.fromtimestamp] accepts the end of the window. *)
Theorem refused_until_rollover ft identifier requests window ws nows : forall self,
  window_of self window <> 0 ->
  ft (ws + window_of self window) = None ->
  limit_of self requests <= count_in self identifier ws ->
  Forall (fun now => aligned now (window_of self window) = ws) nows ->
  fst (check_all ft identifier requests window nows self) =
    map (fun _ => denied (limit_of self requests) ws (window_of self window)) nows
  /\ count_in (snd (check_all ft identifier requests window nows self)) identifier ws
     = count_in self identifier ws.
Proof.
  induction nows as [|t nows IH]; intros self Hw Hft Hk Hin; [done|].
  apply Forall_cons in Hin as [Ht Hin]. simpl.
  destruct (RateLimitFacts.check_rate_limit_step ft self identifier requests window
              t Hw) as (s1 & Hcall & Hid & _ & Hrq & Hwd).
  rewrite Ht in Hcall, Hid. rewrite Hft, decide_True in Hcall by done.
  rewrite Hcall.
  assert (Hlim1 : limit_of s1 requests = limit_of self requests)
    by (unfold limit_of; by rewrite Hrq).
  assert (Hw1 : window_of s1 window = window_of self window)
    by (unfold window_of; by rewrite Hwd).
  assert (Hk1 : count_in s1 identifier ws = count_in self identifier ws).
  { unfold count_in at 1. rewrite Hid. simpl.
    rewrite decide_True by done. by rewrite decide_True. }
  destruct (IH s1) as [Hres Hcnt]; rewrite ?Hlim1, ?Hw1, ?Hk1; try done.
  destruct (check_all ft identifier requests window nows s1) as [rs s2].
  simpl in *. rewrite Hres, Hlim1, Hw1. split; [done|]. by rewrite Hcnt.
Qed.

Lemma refused_until_rollover_witness :
  fst (check_all utc "u1" (Some 1) (Some 60) [1; 2; 3] RateLimitSpec.after_one_call) =
    map (fun _ => denied 1 0 60) [1; 2; 3]
  /\ count_in (snd (check_all utc "u1" (Some 1) (Some 60) [1; 2; 3]
                      RateLimitSpec.after_one_call)) "u1" 0
     = count_in RateLimitSpec.after_one_call "u1" 0.
Proof.
  refine (refused_until_rollover utc "u1" (Some 1) (Some 60) 0 [1; 2; 3]
            RateLimitSpec.after_one_call _ _ _ _).
  - discriminate.
  - reflexivity.
  - vm_compute. discriminate.
  - repeat constructor.
Defined.

End RateLimitMore.

(** ** More on the generation service *)

Module LLMMore.
Import LLM LLMSpec.

Ltac unmonad := LLMFacts.unmonad.
Ltac run := LLMFacts.run.

(** The [provider] field of a response names the adapter that built it. *)
Lemma dispatch_provider env settings request self a self' :
  dispatch env settings request self = (Ok a, self') ->
  provider a = LLMModels.adapter_name (lower (llm_provider settings)).
Proof.
  unfold dispatch, LLMModels.adapter_name.
  repeat case_decide; intros Hcall;
    [unfold _generate_huggingface in Hcall | unfold _generate_openai in Hcall
    | unfold _generate_anthropic in Hcall
    | unfold _generate_llamacpp, _load_llamacpp_model in Hcall]; run.
Qed.

(** The [provider] field of a result is the name of the adapter that
    served the request: the lowered configured name for the three names
    with an adapter of their own, and ["llamacpp"] for every other name,
    known or not. *)
Theorem result_names_adapter env settings request t0 t1 self r self' :
  generate_text env settings request t0 t1 self = (Ok r, self') ->
  provider r = LLMModels.adapter_name (lower (llm_provider settings)).
Proof.
  rewrite LLMFacts.generate_text_dispatch.
  destruct (dispatch env settings request self) as [[a|e] s1] eqn:Hd; [|done].
  intros [= <- <-]. simpl. eapply dispatch_provider, Hd.
Qed.

Lemma result_names_adapter_witness :
  provider Scenario.hello = LLMModels.adapter_name (lower "Mistral").
Proof.
  refine (result_names_adapter Scenario.stub_env
            (with_provider "Mistral" default_settings) Scenario.hi 0 (1 # 4)
            (empty_service []) Scenario.hello
            (snd (generate_text Scenario.stub_env
                    (with_provider "Mistral" default_settings) Scenario.hi 0 (1 # 4)
                    (empty_service [])))
            _).
  vm_compute. reflexivity.
Defined.

(** [get_available_models] lists at most one model. It lists none exactly
    when the configured name is not a known one, or is huggingface with an
    empty model name. *)
Theorem models_listed settings :
  (length (LLMModels.get_available_models settings) <= 1)%nat
  /\ (LLMModels.get_available_models settings = [] <->
       known_provider (lower (llm_provider settings)) = false
       \/ (lower (llm_provider settings) = "huggingface"
            /\ llm_model settings = "")).
Proof.
  unfold LLMModels.get_available_models, known_provider, is_llamacpp_name, truthy.
  generalize (lower (llm_provider settings)). intros p.
  repeat case_bool_decide; subst; simpl; try discriminate;
    repeat case_decide; simpl; (split; [lia|]); split;
    try (intros [Hunknown|[Hhf Hmodel]]); try done; try congruence; auto.
Qed.

(** A model that is listed is served by the adapter it names: whenever
    [generate_text] succeeds, the [provider] of its result is the
    [provider] of every listed model. *)
Theorem listed_model_is_served env settings request t0 t1 self r self' m :
  In m (LLMModels.get_available_models settings) ->
  generate_text env settings request t0 t1 self = (Ok r, self') ->
  LLMModels.provider m = provider r.
Proof.
  intros Hm Hgen.
  rewrite LLMFacts.generate_text_dispatch in Hgen.
  destruct (dispatch env settings request self) as [[a|e] s1] eqn:Hd; [|done].
  simplify_eq/=. rewrite (dispatch_provider _ _ _ _ _ _ Hd).
  revert Hm.
  unfold LLMModels.get_available_models, LLMModels.adapter_name, is_llamacpp_name.
  generalize (lower (llm_provider settings)). intros p.
  repeat case_bool_decide; subst; simpl; try discriminate;
    repeat case_decide; simpl; try done; intros Hm;
    repeat (destruct Hm as [<-|Hm]; try done).
Qed.

Lemma listed_model_is_served_witness :
  LLMModels.provider
    {| LLMModels.id := "models/TinyLlama-1.1B-Chat-v1.0.Q4_K_M.gguf";
       LLMModels.name := "Local GGUF Model (llama.cpp)";
       LLMModels.provider := "llamacpp";
       LLMModels.type := "text-generation" |} = provider Scenario.hello.
Proof.
  refine (listed_model_is_served Scenario.stub_env default_settings Scenario.hi
            0 (1 # 4) (empty_service []) Scenario.hello
            (snd (generate_text Scenario.stub_env default_settings Scenario.hi
                    0 (1 # 4) (empty_service [])))
            _ _ _).
  - vm_compute. left. reflexivity.
  - vm_compute. reflexivity.
Defined.

(** [generate_text] reads the service and, but for one case, does not
    change it: under a provider with an adapter of its own, and under
    llama.cpp once the model is loaded, the service after the call is the
    service before it, whether the call succeeds or raises. *)
Theorem generate_text_keeps_service env settings request t0 t1 self :
  lower (llm_provider settings) = "huggingface"
  \/ lower (llm_provider settings) = "openai"
  \/ lower (llm_provider settings) = "anthropic"
  \/ llamacpp_model self <> None ->
  snd (generate_text env settings request t0 t1 self) = self.
Proof.
  intros Hcase. rewrite LLMFacts.generate_text_dispatch.
  destruct (dispatch env settings request self) as [r s1] eqn:Hd.
  assert (s1 = self); [|by destruct r; subst].
  unfold dispatch in Hd.
  destruct (decide (lower (llm_provider settings) = "huggingface"));
    [unfold _generate_huggingface in Hd; by run|].
  destruct (decide (lower (llm_provider settings) = "openai"));
    [unfold _generate_openai in Hd; by run|].
  destruct (decide (lower (llm_provider settings) = "anthropic"));
    [unfold _generate_anthropic in Hd; by run|].
  destruct Hcase as [?|[?|[?|Hloaded]]]; try done.
  unfold _generate_llamacpp in Hd.
  destruct (llamacpp_model self) as [llm|] eqn:Hllm; [|done].
  unmonad. rewrite Hllm in Hd. by run.
Qed.

Lemma generate_text_keeps_service_witness :
  snd (generate_text Scenario.stub_env Scenario.openai_settings Scenario.hi
         0 (1 # 4) (empty_service [])) = empty_service [].
Proof.
  refine (generate_text_keeps_service Scenario.stub_env Scenario.openai_settings
            Scenario.hi 0 (1 # 4) (empty_service []) _).
  right. left. reflexivity.
Defined.

(** The one case: under llama.cpp with no model loaded, as after an
    initialization that failed, [generate_text] loads the model itself.
    When the library is there, the model file exists and the constructor
    succeeds, the service holds the model after the call, whatever the
    back end then answers, and has logged the two records of the load. *)
Theorem generate_text_loads_lazily env settings request t0 t1 self :
  LLMModels.adapter_is_llamacpp settings ->
  llamacpp_model self = None ->
  llama_cpp_imported env = true ->
  truthy (llm_model_path settings) = true ->
  path_exists env (default "" (llm_model_path settings)) = true ->
  Llama env (default "" (llm_model_path settings)) = None ->
  let self' := snd (generate_text env settings request t0 t1 self) in
  llamacpp_model self' = Some (default "" (llm_model_path settings))
  /\ log self' =
       (log self
        ++ [(INFO, ("Loading llama.cpp model from: "
                    ++ default "" (llm_model_path settings))%string);
            (INFO, "llama.cpp model loaded successfully")])%list
  /\ snd (generate_text env settings request t0 t1 self') = self'.
Proof.
  intros (Hhf & Hoa & Han) Hnone Hlib Hpath Hfile Hctor self'.
  assert (Hload : llamacpp_model self' = Some (default "" (llm_model_path settings))
                  /\ log self' =
                       (log self
                        ++ [(INFO, ("Loading llama.cpp model from: "
                                    ++ default "" (llm_model_path settings))%string);
                            (INFO, "llama.cpp model loaded successfully")])%list).
  { subst self'. rewrite LLMFacts.generate_text_dispatch. unfold dispatch.
    rewrite !decide_False by done.
    unfold _generate_llamacpp, _load_llamacpp_model.
    unmonad. rewrite Hnone, Hlib, Hpath, Hfile, Hctor. simpl.
    rewrite <- app_assoc. simpl.
    by repeat (case_match; simplify_eq/=). }
  destruct Hload as [Hm Hl]. split; [done|]. split; [done|].
  apply generate_text_keeps_service. do 3 right. by rewrite Hm.
Qed.

Lemma generate_text_loads_lazily_witness :
  let self' := snd (generate_text Scenario.stub_env default_settings Scenario.hi
                      0 (1 # 4) (empty_service [])) in
  llamacpp_model self' = Some "models/TinyLlama-1.1B-Chat-v1.0.Q4_K_M.gguf"
  /\ log self' =
       [(INFO, "Loading llama.cpp model from: models/TinyLlama-1.1B-Chat-v1.0.Q4_K_M.gguf");
        (INFO, "llama.cpp model loaded successfully")]
  /\ snd (generate_text Scenario.stub_env default_settings Scenario.hi
            0 (1 # 4) self') = self'.
Proof.
  refine (generate_text_loads_lazily Scenario.stub_env default_settings Scenario.hi
            0 (1 # 4) (empty_service []) _ _ _ _ _ _).
  - vm_compute. repeat split; discriminate.
  - reflexivity.
  - reflexivity.
  - reflexivity.
  - reflexivity.
  - reflexivity.
Defined.

(** The other side of initialization: with the prerequisite of the
    provider met and the constructor of the local model or of the
    Anthropic client succeeding, the service comes out ready to serve (the
    model, the pipeline, the client or the key is in place), and no error
    is logged. *)
Theorem initialization_succeeds env settings :
  prerequisite_met env settings = true ->
  LLMModels.constructor_succeeds env settings ->
  fst (init env settings) = Ok tt
  /\ LLMModels.ready settings (snd (init env settings))
  /\ existsb LLMModels.is_error (log (snd (init env settings))) = false.
Proof.
  unfold prerequisite_met, LLMModels.constructor_succeeds, LLMModels.ready.
  intros Hmet Hctor. split; [apply LLMFacts._initialize_models_returns|].
  unfold init, _initialize_models.
  destruct (decide (lower (llm_provider settings) = "huggingface")).
  { unfold _load_huggingface_model. unmonad. rewrite Hmet, Hctor. simpl.
    by rewrite !lookup_insert_eq. }
  destruct (decide (lower (llm_provider settings) = "openai")).
  { unfold _initialize_openai. unmonad.
    apply andb_true_iff in Hmet as [-> ->]. by simpl. }
  destruct (decide (lower (llm_provider settings) = "anthropic")).
  { unfold _initialize_anthropic, construct. unmonad.
    apply andb_true_iff in Hmet as [-> ->]. rewrite Hctor. by simpl. }
  apply andb_true_iff in Hmet as [Hmet Hfile].
  apply andb_true_iff in Hmet as [Hlib Hpath].
  unfold _load_llamacpp_model. unmonad.
  destruct (is_llamacpp_name (lower (llm_provider settings)));
    rewrite Hlib, Hpath, Hfile, Hctor; by simpl.
Qed.

Lemma initialization_succeeds_witness :
  fst (init Scenario.stub_env default_settings) = Ok tt
  /\ LLMModels.ready default_settings (snd (init Scenario.stub_env default_settings))
  /\ existsb LLMModels.is_error
       (log (snd (init Scenario.stub_env default_settings))) = false.
Proof.
  refine (initialization_succeeds Scenario.stub_env default_settings _ _).
  - vm_compute. reflexivity.
  - vm_compute. reflexivity.
Defined.

Lemma int_of_Q_sign (x : Q) :
  ((0 <= x)%Q -> 0 <= int_of_Q x) /\ ((x <= 0)%Q -> int_of_Q x <= 0).
Proof.
  destruct x as [n d]. unfold Qle, int_of_Q. simpl. rewrite !Z.mul_1_r.
  split; intros Hn.
  - apply Z.quot_pos; lia.
  - rewrite <- (Z.opp_involutive n), Z.quot_opp_l by lia.
    pose proof (Z.quot_pos (- n) (Z.pos d)). lia.
Qed.

(** The latency of a result follows the two clock readings of
    [generate_text], which are readings of the wall clock: it is not
    negative when the clock has not gone back between them, and it is not
    positive when the clock has. *)
Theorem latency_follows_clock env settings request t0 t1 self r self' :
  generate_text env settings request t0 t1 self = (Ok r, self') ->
  ((t0 <= t1)%Q -> 0 <= response_time_ms r)
  /\ ((t1 <= t0)%Q -> response_time_ms r <= 0).
Proof.
  rewrite LLMFacts.generate_text_dispatch.
  destruct (dispatch env settings request self) as [[a|e] s1]; [|done].
  intros [= <- <-]. simpl.
  destruct (int_of_Q_sign ((t1 - t0) * 1000)) as [Hpos Hneg].
  split; intros Hle.
  - apply Hpos. apply Qmult_le_0_compat; [|done]. by apply Qle_minus_iff in Hle.
  - apply Hneg. clear Hpos Hneg. destruct t0 as [a0 b0], t1 as [a1 b1].
    unfold Qle, Qminus, Qplus, Qmult, Qopp in *. simpl in *. nia.
Qed.

Lemma latency_follows_clock_witness :
  ((0 <= 1 # 4)%Q -> 0 <= response_time_ms Scenario.hello)
  /\ ((1 # 4 <= 0)%Q -> response_time_ms Scenario.hello <= 0).
Proof.
  refine (latency_follows_clock Scenario.stub_env default_settings Scenario.hi
            0 (1 # 4) (empty_service []) Scenario.hello
            (snd (generate_text Scenario.stub_env default_settings Scenario.hi
                    0 (1 # 4) (empty_service [])))
            _).
  vm_compute. reflexivity.
Defined.

Lemma slice_from_app (p c : string) : slice_from (String.length p) (p ++ c) = c.
Proof. induction p as [|a p IH]; [done|]. simpl. apply IH. Qed.

Lemma slice_from_short (n : nat) (g : string) :
  (String.length g <= n)%nat -> slice_from n g = "".
Proof.
  revert g. induction n as [|n IH]; intros [|a g]; simpl; try done; try lia.
  intros Hlen. apply IH. lia.
Qed.

(** The transformer pipeline echoes the prompt, and the adapter cuts it
    off by its length. For a prompt and a generated text of ASCII
    characters: when the generated text is the prompt followed by a
    completion, the text of the response is the completion, stripped, and
    the output tokens are those of the completion as generated. When the
    generated text is not longer than the prompt, the text is empty. *)
Theorem huggingface_drops_echoed_prompt env settings request self a self' g :
  is_ascii (prompt request) = true ->
  is_ascii g = true ->
  _generate_huggingface env settings request self = (Ok a, self') ->
  hf_pipe env request = Ok g ->
  (forall c, g = (prompt request ++ c)%string ->
     text a = strip c
     /\ exists n, hf_encode env c = Ok n /\ output_tokens a = Z.of_nat n)
  /\ ((String.length g <= String.length (prompt request))%nat -> text a = "").
Proof.
  unfold _generate_huggingface. intros _ _ Hcall Hpipe.
  unmonad. rewrite Hpipe in Hcall.
  split.
  - intros c ->. rewrite slice_from_app in Hcall.
    repeat (case_match; simplify_eq/=). eauto.
  - intros Hshort. rewrite (slice_from_short _ _ Hshort) in Hcall.
    by repeat (case_match; simplify_eq/=).
Qed.

Lemma huggingface_drops_echoed_prompt_witness :
  (forall c, ("Hi" ++ "Hello")%string = ("Hi" ++ c)%string ->
     "Hello" = strip c
     /\ exists n, hf_encode Scenario.stub_env c = Ok n /\ 1 = Z.of_nat n)
  /\ ((String.length "HiHello" <= String.length "Hi")%nat -> "Hello" = "").
Proof.
  refine (huggingface_drops_echoed_prompt Scenario.stub_env
            (with_provider "huggingface" default_settings) Scenario.hi
            (snd (init Scenario.stub_env (with_provider "huggingface" default_settings)))
            {| text := "Hello"; input_tokens := 1; output_tokens := 1;
               total_tokens := 2; model_used := "meta-llama/Llama-2-7b-chat-hf";
               provider := "huggingface"; response_time_ms := 0; cost := 0 |}
            (snd (init Scenario.stub_env (with_provider "huggingface" default_settings)))
            "HiHello" _ _ _ _).
  - reflexivity.
  - reflexivity.
  - vm_compute. reflexivity.
  - reflexivity.
Defined.

(** Through the endpoint the model name of a request is never empty: the
    endpoint puts ["default"] where the caller names no model. So the
    default names of the hosted adapters are not used, and a hosted
    provider is asked for, and the result names, the model ["default"]. *)
Theorem endpoint_model_name env body self a self' :
  _generate_openai env (Main.gen_request body) self = (Ok a, self')
  \/ _generate_anthropic env (Main.gen_request body) self = (Ok a, self') ->
  model_used a = str_or (Main.model body) "default"
  /\ model_used a <> "".
Proof.
  assert (Hname : forall d, model_or (Main.gen_request body) d =
                            str_or (Main.model body) "default"
                            /\ str_or (Main.model body) "default" <> "").
  { intros d. unfold model_or, Main.gen_request, str_or. simpl.
    destruct (Main.model body) as [m|]; repeat case_decide; done. }
  intros [Hcall|Hcall];
    [unfold _generate_openai in Hcall | unfold _generate_anthropic in Hcall];
    run; simpl;
    match goal with |- model_or _ ?d = _ /\ _ =>
      destruct (Hname d) as [-> Hne] end; done.
Qed.

Lemma endpoint_model_name_witness :
  "default" = str_or (Main.model MainScenario.hi) "default" /\ "default" <> "".
Proof.
  refine (endpoint_model_name Scenario.stub_env MainScenario.hi (empty_service [])
            {| text := "Hello"; input_tokens := 1; output_tokens := 1;
               total_tokens := 2; model_used := "default"; provider := "openai";
               response_time_ms := 0; cost := 0 |}
            (empty_service []) _).
  left. vm_compute. reflexivity.
Defined.

End LLMMore.

(** ** More on usage tracking and the endpoint *)

Module MainMore.
Import Main.

Ltac unmonad := MainFacts.unmonad.
Ltac run := MainFacts.run.

(** What the endpoint hands to [track_usage] reaches the row unchanged:
    the row given to [Usage.calculate_cost] carries the names, the token
    counts, the cost and the latency of the response, the status 200, no
    request id, and, as the endpoint names no price, the default price of
    0.002 per 1k tokens. The row that comes back is the one stored, at the
    end of the table, and the one returned. *)
Theorem endpoint_usage_row store uid response rows u rows' :
  Analytics.track_usage store uid (usage_data response) rows = (Ok u, rows') ->
  Analytics.calculate_cost store
    {| Analytics.user_id := uid;
       Analytics.endpoint := Analytics.Str "/api/v1/generate";
       Analytics.model_used := Analytics.Str (LLM.model_used response);
       Analytics.provider := Analytics.Str (LLM.provider response);
       Analytics.input_tokens := Analytics.Int (LLM.input_tokens response);
       Analytics.output_tokens := Analytics.Int (LLM.output_tokens response);
       Analytics.total_tokens := Analytics.Int (LLM.total_tokens response);
       Analytics.cost_per_1k_tokens := Analytics.Float (2 # 1000);
       Analytics.total_cost := Analytics.Float (LLM.cost response);
       Analytics.request_id := Analytics.PyNone;
       Analytics.response_time_ms := Analytics.Int (LLM.response_time_ms response);
       Analytics.status_code := Analytics.Int 200 |} = Ok u
  /\ Analytics.add store u = None
  /\ Analytics.commit store u = None
  /\ Analytics.refresh store u = None
  /\ rows' = (rows ++ [u])%list.
Proof.
  unfold Analytics.track_usage, Analytics.get_or, usage_data.
  repeat (rewrite lookup_insert_eq || rewrite lookup_insert_ne by done).
  rewrite !lookup_empty. simpl. intros H. run.
Qed.

Lemma endpoint_usage_row_witness :
  Analytics.calculate_cost (store MainScenario.stub_env) MainScenario.hello_row
    = Ok MainScenario.hello_row
  /\ Analytics.add (store MainScenario.stub_env) MainScenario.hello_row = None
  /\ Analytics.commit (store MainScenario.stub_env) MainScenario.hello_row = None
  /\ Analytics.refresh (store MainScenario.stub_env) MainScenario.hello_row = None
  /\ [MainScenario.hello_row] = ([] ++ [MainScenario.hello_row])%list.
Proof.
  refine (endpoint_usage_row (store MainScenario.stub_env) 1 Scenario.hello []
            MainScenario.hello_row [MainScenario.hello_row] _).
  vm_compute. reflexivity.
Defined.

(** The endpoint raises four exceptions and no other: the 429 of the
    rate limiter; the [ZeroDivisionError] of a limiter configured with a
    window of 0; the error of [datetime.fromtimestamp] at the end of the
    current window, where it does not accept that instant, which the
    limiter lets through outside of the [try] block; and, for everything
    that goes wrong after admission, the 500 whose detail is the fixed
    text ["Generation failed"]. *)
Theorem endpoint_raises_only env settings body current_user now t0 t1 w e w' :
  generate_text env settings body current_user now t0 t1 w = (Raise e, w') ->
  let window := RateLimit.default_window (rate_limit_service w) in
  e = HTTPException 429 "Rate limit exceeded"
  \/ (e = ZeroDivisionError /\ window = 0)
  \/ (exists d,
        fromtimestamp env (RateLimitSpec.aligned now window + window) = Some d
        /\ e = RateLimit.exn_of d)
  \/ e = HTTPException 500 "Generation failed".
Proof.
  intros H window. unfold generate_text in H.
  unfold bind at 1, on_rate_limit, zoom, RateLimit.enforce_rate_limit, bind in H.
  destruct (RateLimit.check_rate_limit (fromtimestamp env)
              (rate_limit_key current_user) None None now
              (rate_limit_service w)) as [[[[] info]|e0] rl'] eqn:Hcheck.
  - right. right. right. unfold ret at 1 in H. run.
  - left. unfold raise in H. simpl in H. by simplify_eq.
  - right. simpl in H. simplify_eq.
    destruct (decide (window = 0)) as [Hz|Hnz].
    + left. split; [|done].
      unfold RateLimit.check_rate_limit, RateLimit._get_window_start in Hcheck.
      simpl in Hcheck. fold window in Hcheck. rewrite Hz in Hcheck.
      simpl in Hcheck. by simplify_eq.
    + right. left.
      destruct (RateLimitFacts.check_rate_limit_step (fromtimestamp env)
                  (rate_limit_service w) (rate_limit_key current_user)
                  None None now Hnz) as (s1 & Hstep & _).
      rewrite Hcheck in Hstep.
      change (RateLimitSpec.window_of (rate_limit_service w) None)
        with window in Hstep.
      destruct (fromtimestamp env _) as [d|]; [|by case_decide].
      exists d. split; [done|]. by simplify_eq.
Qed.

Lemma endpoint_raises_only_witness :
  let window :=
    RateLimit.default_window
      (rate_limit_service
         (startup MainScenario.stub_env MoreScenario.long_window_settings)) in
  ValueError "year 33658 is out of range" =
    HTTPException 429 "Rate limit exceeded"
  \/ (ValueError "year 33658 is out of range" = ZeroDivisionError /\ window = 0)
  \/ (exists d,
        fromtimestamp MainScenario.stub_env
          (RateLimitSpec.aligned 1762167776 window + window) = Some d
        /\ ValueError "year 33658 is out of range" = RateLimit.exn_of d)
  \/ ValueError "year 33658 is out of range" =
       HTTPException 500 "Generation failed".
Proof.
  refine (endpoint_raises_only MainScenario.stub_env
            MoreScenario.long_window_settings
            MainScenario.hi MainScenario.user1 1762167776 0 (1 # 4)
            (startup MainScenario.stub_env MoreScenario.long_window_settings)
            (ValueError "year 33658 is out of range")
            (snd (generate_text MainScenario.stub_env
                    MoreScenario.long_window_settings MainScenario.hi
                    MainScenario.user1 1762167776 0 (1 # 4)
                    (startup MainScenario.stub_env
                       MoreScenario.long_window_settings)))
            _).
  vm_compute. reflexivity.
Defined.

(** A request that is admitted is counted, whatever becomes of it: when
    the endpoint answers 500, the count of the caller in the current window
    is one more than before. *)
Theorem failed_request_is_counted
    env settings body current_user now t0 t1 w detail w' :
  generate_text env settings body current_user now t0 t1 w =
    (Raise (HTTPException 500 detail), w') ->
  let ws := RateLimitSpec.aligned now
              (RateLimit.default_window (rate_limit_service w)) in
  RateLimitSpec.count_in (rate_limit_service w') (rate_limit_key current_user) ws
  = RateLimitSpec.count_in (rate_limit_service w) (rate_limit_key current_user) ws
    + 1.
Proof.
  intros H ws. unfold generate_text in H.
  unfold bind at 1, on_rate_limit, zoom, RateLimit.enforce_rate_limit, bind in H.
  destruct (RateLimit.check_rate_limit (fromtimestamp env)
              (rate_limit_key current_user) None None now
              (rate_limit_service w)) as [[[[] info]|e0] rl'] eqn:Hcheck;
    [|unfold raise in H; simpl in H; by simplify_eq|].
  - assert (Hrl : rate_limit_service w' = rl').
    { unfold ret at 1 in H. run. }
    rewrite Hrl.
    destruct (decide (RateLimitSpec.window_of (rate_limit_service w) None = 0))
      as [Hz|Hnz].
    { unfold RateLimit.check_rate_limit, RateLimit._get_window_start in Hcheck.
      unfold RateLimitSpec.window_of in Hz. rewrite Hz in Hcheck. done. }
    destruct (RateLimitFacts.check_rate_limit_step (fromtimestamp env)
                (rate_limit_service w) (rate_limit_key current_user)
                None None now Hnz) as (s1 & Hstep & Hid & _).
    rewrite Hcheck in Hstep.
    change (RateLimitSpec.aligned now
              (RateLimitSpec.window_of (rate_limit_service w) None))
      with ws in Hstep, Hid.
    destruct (fromtimestamp env _); [done|].
    case_decide; [done|]. simplify_eq.
    unfold RateLimitSpec.count_in at 1. rewrite Hid. simpl.
    by rewrite decide_True.
  - simpl in H. simplify_eq. exfalso.
    unfold RateLimit.check_rate_limit, RateLimit._get_window_start in Hcheck.
    simpl in Hcheck.
    case_decide; repeat (case_match; simplify_eq/=); try discriminate;
      by match goal with Hd : RateLimit.exn_of ?d = _ |- _ => destruct d end.
Qed.

Lemma failed_request_is_counted_witness :
  RateLimitSpec.count_in
    (rate_limit_service
       (snd (generate_text MainScenario.failing_sink_env default_settings
               MainScenario.hi MainScenario.user1 0 0 (1 # 4)
               (startup MainScenario.failing_sink_env default_settings))))
    (rate_limit_key MainScenario.user1) 0
  = RateLimitSpec.count_in
      (rate_limit_service (startup MainScenario.failing_sink_env default_settings))
      (rate_limit_key MainScenario.user1) 0
    + 1.
Proof.
  refine (failed_request_is_counted MainScenario.failing_sink_env default_settings
            MainScenario.hi MainScenario.user1 0 0 (1 # 4)
            (startup MainScenario.failing_sink_env default_settings)
            "Generation failed"
            (snd (generate_text MainScenario.failing_sink_env default_settings
                    MainScenario.hi MainScenario.user1 0 0 (1 # 4)
                    (startup MainScenario.failing_sink_env default_settings)))
            _).
  vm_compute. reflexivity.
Defined.

(** The usage row is written before the work of the endpoint is over. When
    the row is stored and the update of the user or the last commit then
    fails, the caller is answered 500 and gets no text, and the row stays
    in the table. *)
Theorem usage_row_outlives_failed_commit
    env settings body current_user now t0 t1 w info w1 response llm' u rows' e :
  on_rate_limit
    (RateLimit.enforce_rate_limit (fromtimestamp env)
       (rate_limit_key current_user) None None now) w
    = (Ok info, w1) ->
  LLM.generate_text (llm_env env) settings (gen_request body) t0 t1
    (llm_service w1) = (Ok response, llm') ->
  Analytics.track_usage (store env) (id current_user) (usage_data response)
    (usage_table w1) = (Ok u, rows') ->
  update_usage env current_user (LLM.total_tokens response) = Some e
  \/ (update_usage env current_user (LLM.total_tokens response) = None
       /\ db_commit env = Some e) ->
  exists w',
    generate_text env settings body current_user now t0 t1 w =
      (Raise (HTTPException 500 "Generation failed"), w')
    /\ usage_table w' = (usage_table w ++ [u])%list
    /\ log w' = (log w ++ [(ERROR, ("Generation failed: " ++ str_exn e)%string)])%list.
Proof.
  intros Hadm Hgen Htrack Hfail.
  pose proof (MainFacts.track_usage_rows _ _ _ _ _ _ Htrack) as [Hrows _].
  unfold generate_text, bind at 1. rewrite Hadm.
  unfold try_except, bind at 1, on_llm at 1, zoom at 1. rewrite Hgen.
  unfold bind at 1, on_db at 1, zoom at 1. simpl. rewrite Htrack. simpl.
  unfold on_rate_limit, zoom in Hadm.
  destruct (RateLimit.enforce_rate_limit _ _ _ _ _ _) as [r rl'] in Hadm.
  simplify_eq/=.
  unfold bind, external, raise, ret, logger, modify.
  destruct Hfail as [->|[-> ->]]; simpl; by eexists.
Qed.

Lemma usage_row_outlives_failed_commit_witness :
  exists w',
    generate_text MoreScenario.failing_commit_env default_settings MainScenario.hi
      MainScenario.user1 0 0 (1 # 4)
      (startup MoreScenario.failing_commit_env default_settings) =
      (Raise (HTTPException 500 "Generation failed"), w')
    /\ usage_table w' = [MainScenario.hello_row]
    /\ log w' = [(ERROR, "Generation failed: database is locked")].
Proof.
  refine (usage_row_outlives_failed_commit MoreScenario.failing_commit_env
            default_settings MainScenario.hi MainScenario.user1 0 0 (1 # 4)
            (startup MoreScenario.failing_commit_env default_settings)
            {| RateLimit.limit := 100; RateLimit.remaining := 99;
               RateLimit.reset := 3600; RateLimit.window := 3600 |}
            (snd (on_rate_limit
                    (RateLimit.enforce_rate_limit RateLimit.utc
                       (rate_limit_key MainScenario.user1) None None 0)
                    (startup MoreScenario.failing_commit_env default_settings)))
            Scenario.hello
            (llm_service (startup MoreScenario.failing_commit_env default_settings))
            MainScenario.hello_row [MainScenario.hello_row]
            (ExternalError "database is locked") _ _ _ _).
  - vm_compute. reflexivity.
  - vm_compute. reflexivity.
  - vm_compute. reflexivity.
  - right. split; reflexivity.
Defined.

End MainMore.

(** ** API keys and the authentication of a request *)

Module AuthFacts.
Import Auth.

Ltac unmonad :=
  unfold get_user_by_api_key, verify_api_key, revoke_api_key, db_commit,
    db_query, bind, ret, raise, get, modify in *.
Ltac run := repeat (unmonad; case_match; simplify_eq/=); try done.

Lemma find_some_in {A} (P : A -> bool) (l : list A) (x : A) :
  List.find P l = Some x -> In x l /\ P x = true.
Proof. apply find_some. Qed.

(** What a successful verification has found, and what it has changed. *)
Lemma verified_key_fields env api_key db r db' :
  verify_api_key env api_key db = (Ok (Some r), db') ->
  exists r0,
    In r0 (api_keys db)
    /\ r = update_last_used env r0
    /\ is_active r0 = true
    /\ verify_key env r0 api_key = true
    /\ is_expired env r0 = false
    /\ users db' = users db.
Proof.
  intros H. unfold verify_api_key in H. case_decide; [by run|]. unmonad.
  destruct (query_api_key env); [by simplify_eq|]; simpl in *.
  destruct (List.find _ (api_keys db)) as [r0|] eqn:Hfind; [|by simplify_eq].
  apply find_some_in in Hfind as [Hin Hsel].
  apply andb_true_iff in Hsel as [_ Hactive].
  destruct (verify_key env r0 api_key) eqn:Hv; simpl in H; [|by simplify_eq].
  destruct (is_expired env r0) eqn:He; [by simplify_eq|].
  exists r0. run.
Qed.

(** A key is verified against one record only: an active one with the
    prefix of the key, that accepts the key and has not expired. What is
    returned is that record after [update_last_used]. An empty key is
    verified against nothing. *)
Theorem verified_key_record env api_key db r db' :
  verify_api_key env api_key db = (Ok (Some r), db') ->
  api_key <> ""
  /\ exists r0,
       In r0 (api_keys db)
       /\ r = update_last_used env r0
       /\ is_active r0 = true
       /\ key_prefix r0 = get_key_prefix env api_key
       /\ verify_key env r0 api_key = true
       /\ is_expired env r0 = false.
Proof.
  intros H. unfold verify_api_key in H. case_decide; [by run|].
  split; [done|]. unmonad.
  destruct (query_api_key env); [by simplify_eq|]; simpl in *.
  destruct (List.find _ (api_keys db)) as [r0|] eqn:Hfind; [|by simplify_eq].
  apply find_some_in in Hfind as [Hin Hsel].
  apply andb_true_iff in Hsel as [Hprefix Hactive].
  apply bool_decide_eq_true in Hprefix.
  destruct (verify_key env r0 api_key) eqn:Hv; simpl in H; [|by simplify_eq].
  destruct (is_expired env r0) eqn:He; [by simplify_eq|].
  exists r0. run.
Qed.

Lemma verified_key_record_witness :
  "sk-alice" <> ""
  /\ exists r0,
       In r0 (api_keys AuthScenario.db)
       /\ AuthScenario.key_of_alice = update_last_used AuthScenario.env r0
       /\ is_active r0 = true
       /\ key_prefix r0 = get_key_prefix AuthScenario.env "sk-alice"
       /\ verify_key AuthScenario.env r0 "sk-alice" = true
       /\ is_expired AuthScenario.env r0 = false.
Proof.
  refine (verified_key_record AuthScenario.env "sk-alice" AuthScenario.db
            AuthScenario.key_of_alice AuthScenario.db _).
  vm_compute. reflexivity.
Defined.

Lemma update_first_split {A} (P : A -> bool) (f : A -> A) (l : list A) (x : A) :
  List.find P l = Some x ->
  exists l1 l2,
    l = (l1 ++ x :: l2)%list
    /\ update_first P f l = (l1 ++ f x :: l2)%list
    /\ Forall (fun y => P y = false) l1.
Proof.
  induction l as [|y l IH]; [done|]. simpl.
  destruct (P y) eqn:Hy.
  - intros [= ->]. by exists [], l.
  - intros Hfind. destruct (IH Hfind) as (l1 & l2 & -> & -> & Hall).
    exists (y :: l1), l2. repeat split; try done. by constructor.
Qed.

(** Revoking touches one record at most, and only a record of the caller:
    [revoke_api_key] answers [False] and leaves the table as it is when no
    key with that id belongs to the user; when it answers [True], the
    table is the same but for one record, with that id and of that user,
    which is now inactive. *)
Theorem revoke_changes_own_key_only env uid key_id db b db' :
  revoke_api_key env uid key_id db = (Ok b, db') ->
  (b = false /\ db' = db
   /\ forall r, In r (api_keys db) -> ~ (id r = key_id /\ user_id r = uid))
  \/ (b = true /\ users db' = users db
      /\ exists l1 r l2,
           api_keys db = (l1 ++ r :: l2)%list
           /\ api_keys db' = (l1 ++ set_is_active false r :: l2)%list
           /\ id r = key_id /\ user_id r = uid).
Proof.
  intros H. unfold revoke_api_key in H. unmonad.
  destruct (query_api_key env); [by simplify_eq|]; simpl in *.
  destruct (List.find _ (api_keys db)) as [r|] eqn:Hfind.
  - right.
    destruct (update_first_split _ (set_is_active false) _ _ Hfind)
      as (l1 & l2 & Hl & Hup & _).
    apply find_some_in in Hfind as [_ Hsel].
    apply andb_true_iff in Hsel as [Hid Huid].
    apply bool_decide_eq_true in Hid, Huid.
    destruct (commit env); simplify_eq/=.
    split; [done|]. split; [done|]. exists l1, r, l2. by rewrite Hup.
  - left. simplify_eq. split; [done|]. split; [done|].
    intros r Hin [Hid Huid].
    pose proof (find_none _ _ Hfind r Hin) as Hsel. simpl in Hsel.
    rewrite !bool_decide_eq_true_2 in Hsel by done. done.
Qed.

Lemma revoke_changes_own_key_only_witness :
  (false = false /\ AuthScenario.db = AuthScenario.db
   /\ forall r, In r (api_keys AuthScenario.db) -> ~ (id r = 7 /\ user_id r = 2))
  \/ (false = true /\ users AuthScenario.db = users AuthScenario.db
      /\ exists l1 r l2,
           api_keys AuthScenario.db = (l1 ++ r :: l2)%list
           /\ api_keys AuthScenario.db = (l1 ++ set_is_active false r :: l2)%list
           /\ id r = 7 /\ user_id r = 2).
Proof.
  refine (revoke_changes_own_key_only AuthScenario.env 2 7 AuthScenario.db false
            AuthScenario.db _).
  vm_compute. reflexivity.
Defined.

Lemma find_none_iff {A} (P : A -> bool) (l : list A) :
  (forall x, In x l -> P x = false) -> List.find P l = None.
Proof.
  induction l as [|y l IH]; [done|]. intros Hall. simpl.
  rewrite (Hall y) by (by left). apply IH. intros x Hx. apply Hall. by right.
Qed.

(** A revoked key no longer authenticates, in any later call. With ids
    that are unique in the table, once [revoke_api_key] has answered
    [True] for a key id, a key whose prefix only that record carries is
    refused by [verify_api_key], and [get_user_by_api_key] finds no user
    for it: each answers [None], unless its query of the keys raises (an
    empty key is refused without a query). The later call has its own
    round trips, those of [env']. *)
Theorem revoked_key_is_refused env env' uid key_id db db' api_key :
  NoDup (map id (api_keys db)) ->
  revoke_api_key env uid key_id db = (Ok true, db') ->
  (forall r, In r (api_keys db) ->
     key_prefix r = get_key_prefix env' api_key -> id r = key_id) ->
  verify_api_key env' api_key db' =
    (if decide (api_key = "") then Ok None
     else match query_api_key env' with
          | Some e => Raise e | None => Ok None end, db')
  /\ get_user_by_api_key env' api_key db' =
    (if decide (api_key = "") then Ok None
     else match query_api_key env' with
          | Some e => Raise e | None => Ok None end, db').
Proof.
  intros Hnodup Hrevoke Honly.
  assert (Hverify : verify_api_key env' api_key db' =
            (if decide (api_key = "") then Ok None
             else match query_api_key env' with
                  | Some e => Raise e | None => Ok None end, db')).
  { unfold revoke_api_key in Hrevoke. unmonad.
    destruct (query_api_key env); [by simplify_eq|]; simpl in *.
    destruct (List.find _ (api_keys db)) as [r|] eqn:Hfind; [|by simplify_eq].
    destruct (update_first_split _ (set_is_active false) _ _ Hfind)
      as (l1 & l2 & Hl & Hup & _).
    apply find_some_in in Hfind as [_ Hsel].
    apply andb_true_iff in Hsel as [Hid _]. apply bool_decide_eq_true in Hid.
    destruct (commit env); simplify_eq/=.
    case_decide; [done|].
    destruct (query_api_key env'); [done|].
    unfold bind, get. cbn [set_api_keys api_keys].
    rewrite Hup, find_none_iff; [done|].
    intros x Hx. apply andb_false_iff.
    destruct (decide (key_prefix x = get_key_prefix env' api_key)) as [Hp|Hp];
      [|left; by apply bool_decide_eq_false].
    right. rewrite Hl in Hnodup, Honly.
    rewrite map_app in Hnodup. simpl in Hnodup.
    apply NoDup_app in Hnodup as (_ & Hdisj & Hnd2).
    apply NoDup_cons in Hnd2 as [Hnotin _].
    apply in_app_or in Hx as [Hx|[<-|Hx]]; [| done |].
    - exfalso. apply (Hdisj (id x)).
      + apply list_elem_of_In, in_map, Hx.
      + rewrite (Honly x) by (try done; apply in_or_app; by left).
        apply list_elem_of_here.
    - exfalso. apply Hnotin.
      rewrite <- (Honly x) by (try done; apply in_or_app; right; by right).
      apply list_elem_of_In, in_map, Hx. }
  split; [done|]. unfold get_user_by_api_key, bind. rewrite Hverify.
  case_decide; [done|]. by destruct (query_api_key env').
Qed.

Lemma revoked_key_is_refused_witness :
  verify_api_key AuthScenario.env "sk-alice"
    (snd (revoke_api_key AuthScenario.env 1 7 AuthScenario.db)) =
    (Ok None, snd (revoke_api_key AuthScenario.env 1 7 AuthScenario.db))
  /\ get_user_by_api_key AuthScenario.env "sk-alice"
       (snd (revoke_api_key AuthScenario.env 1 7 AuthScenario.db)) =
       (Ok None, snd (revoke_api_key AuthScenario.env 1 7 AuthScenario.db)).
Proof.
  refine (revoked_key_is_refused AuthScenario.env AuthScenario.env 1 7
            AuthScenario.db
            (snd (revoke_api_key AuthScenario.env 1 7 AuthScenario.db))
            "sk-alice" _ _ _).
  - repeat constructor. by intros ?%elem_of_nil.
  - vm_compute. reflexivity.
  - intros r [<-|[]] _. reflexivity.
Defined.

(** The scheme of the [Authorization] header is removed wherever it
    occurs, so it is optional: a request that sends ["Bearer "] before its
    key is treated exactly as one that sends the key alone. *)
Theorem bearer_prefix_is_optional env key db :
  get_current_user env (Some ("Bearer " ++ key)%string) db =
  get_current_user env (Some key) db.
Proof.
  unfold get_current_user.
  replace (remove_all "Bearer " (default "" (Some ("Bearer " ++ key)%string)))
    with (remove_all "Bearer " (default "" (Some key))); [done|].
  unfold remove_all. simpl. change ("" +:+ key) with key.
  by destruct key.
Qed.

(** [get_current_user] returns active users only, each the owner of an
    active record that accepts the key sent. It fails with status 401, or
    with the exception of one of the round trips of the session, the query
    of the keys, the commit or the query of the users: ["API key required"]
    when nothing is left of the header once the scheme is removed, in which
    case the data base is not touched, and ["Invalid API key"] otherwise.
    The methods of [APIKey] are those of [env]. *)
Theorem current_user_is_authenticated env authorization db res db' :
  get_current_user env authorization db = (res, db') ->
  let api_key := remove_all "Bearer " (default "" authorization) in
  match res with
  | Ok user =>
      Main.is_active user = true
      /\ In user (users db)
      /\ exists r0,
           In r0 (api_keys db)
           /\ Main.id user = user_id (update_last_used env r0)
           /\ is_active r0 = true
           /\ verify_key env r0 api_key = true
           /\ is_expired env r0 = false
  | Raise e =>
      (e = HTTPException 401 "API key required" /\ api_key = "" /\ db' = db)
      \/ (e = HTTPException 401 "Invalid API key" /\ api_key <> "")
      \/ (api_key <> ""
          /\ (query_api_key env = Some e
              \/ commit env = Some e
              \/ query_user env = Some e))
  end.
Proof.
  intros H api_key. unfold get_current_user in H. fold api_key in H.
  case_decide as Hkey.
  { unfold raise in H. simplify_eq. by left. }
  unfold bind at 1 in H.
  destruct (get_user_by_api_key env api_key db) as [[user|e] db1] eqn:Huser.
  - unfold get_user_by_api_key, bind at 1 in Huser.
    destruct (verify_api_key env api_key db) as [[[r|]|e] db2] eqn:Hverify;
      [| |by simplify_eq].
    + destruct (verified_key_fields env api_key db r db2 Hverify)
        as (r0 & Hin & -> & Hact & Hv & Hexp & Husers).
      unfold db_query, bind, get, ret, raise in Huser.
      destruct (query_user env); simplify_eq/=.
      destruct (List.find _ (users db1)) as [u|] eqn:Hfind.
      * apply find_some_in in Hfind as [Huin Huid].
        apply bool_decide_eq_true in Huid.
        destruct (Main.is_active u) eqn:Hua; unfold raise, ret in H; simplify_eq/=.
        -- split; [done|]. split; [by rewrite <- Husers|]. by exists r0.
        -- right. by left.
      * unfold raise in H. simplify_eq. right. by left.
    + unfold ret in Huser. simplify_eq. unfold raise in H. simplify_eq.
      right. by left.
  - simplify_eq. right. right. split; [done|].
    unfold get_user_by_api_key, verify_api_key in Huser.
    run; auto.
Qed.

Lemma current_user_is_authenticated_witness :
  Main.is_active (Main.mkUser 1 true) = true
  /\ In (Main.mkUser 1 true) (users AuthScenario.db)
  /\ exists r0,
       In r0 (api_keys AuthScenario.db)
       /\ Main.id (Main.mkUser 1 true)
          = user_id (update_last_used AuthScenario.env r0)
       /\ is_active r0 = true
       /\ verify_key AuthScenario.env r0
            (remove_all "Bearer " (default "" (Some "Bearer sk-alice"))) = true
       /\ is_expired AuthScenario.env r0 = false.
Proof.
  refine (current_user_is_authenticated AuthScenario.env (Some "Bearer sk-alice")
            AuthScenario.db (Ok (Main.mkUser 1 true)) AuthScenario.db _).
  vm_compute. reflexivity.
Defined.

End AuthFacts.

(** ** The endpoint of the deployment *)

Module DeployFacts.
Import Deploy.

Ltac unmonad :=
  unfold bind, ret, raise, get, modify, on_rate_limit, on_db, zoom, external,
    RateLimit.enforce_rate_limit, Analytics.track_usage, Analytics.session
    in *.
Ltac run := repeat (unmonad; case_match; simplify_eq/=); try done.

Lemma length_slice_to (n : nat) (s : string) :
  (String.length (slice_to n s) <= n)%nat.
Proof.
  revert s. induction n as [|n IH]; intros [|c s]; simpl; try lia.
  specialize (IH s). lia.
Qed.

Lemma string_length_app (a b : string) :
  String.length (a ++ b) = (String.length a + String.length b)%nat.
Proof. induction a as [|c a IH]; simpl; [done|]. by rewrite IH. Qed.

(** A string that ends in three dots has a word. *)
Lemma split_dots (t : string) : split (t ++ "...") <> [].
Proof.
  induction t as [|c t IH]; [done|].
  change (String c t ++ "...")%string with (String c (t ++ "...")).
  cbn [split]. destruct (is_space c); [done|].
  destruct (t ++ "...")%string as [|c' u] eqn:Hu; [done|].
  destruct (is_space c'); [done|].
  by destruct (split (String c' u)).
Qed.

Lemma split_heading (y : string) :
  length (split ("[DEPLOYMENT MODE] This is a mock response to: " ++ y)) =
  (8 + length (split y))%nat.
Proof. reflexivity. Qed.


(** The mock response is the fixed heading, then at most 50 characters of
    the prompt, then three dots: for a prompt of ASCII characters, whatever
    they are, it is never longer than 99 characters, and it counts for 9
    words at least, those of the heading and one more. *)
Theorem mock_response_shape (prompt : string) :
  is_ascii prompt = true ->
  (String.length (mock_response prompt) <= 99)%nat
  /\ (9 <= length (split (mock_response prompt)))%nat
  /\ String.prefix "[DEPLOYMENT MODE] " (mock_response prompt) = true.
Proof.
  intros _. unfold mock_response. split; [|split].
  - rewrite !string_length_app. pose proof (length_slice_to 50 prompt).
    change (String.length "[DEPLOYMENT MODE] This is a mock response to: ")
      with 46%nat.
    change (String.length "...") with 3%nat. lia.
  - pose proof (split_dots (slice_to 50 prompt)) as Hne.
    set (y := (slice_to 50 prompt ++ "...")%string) in *. clearbody y.
    rewrite (split_heading y). destruct (split y); [done|]. simpl. lia.
  - apply String.prefix_correct. reflexivity.
Qed.

Lemma mock_response_shape_witness :
  (String.length (mock_response "Hi") <= 99)%nat
  /\ (9 <= length (split (mock_response "Hi")))%nat
  /\ String.prefix "[DEPLOYMENT MODE] " (mock_response "Hi") = true.
Proof. apply (mock_response_shape "Hi"). reflexivity. Defined.





End DeployFacts.

(** ** Billing *)

Module BillingFacts.
Import Billing.

Ltac unmonad :=
  unfold bind, ret, raise, get, modify, sent, logger, set_stripe_customer_id,
    create_customer in *.

Lemma price_ids_unknown tier :
  tier <> "basic" -> tier <> "pro" -> tier <> "enterprise" ->
  price_ids !! tier = None.
Proof.
  intros. unfold price_ids.
  rewrite !lookup_insert_ne by done. apply lookup_empty.
Qed.

(** The tier is checked after the customer is created. For a tier that is
    not basic, pro or enterprise no subscription is requested, and the
    [ValueError] leaves the method as it is, not as a 400. But for a user
    without a Stripe customer the customer has been requested first: when
    Stripe creates it, the user keeps its id although the call fails. *)
Theorem invalid_tier_after_customer env tier st :
  tier <> "basic" -> tier <> "pro" -> tier <> "enterprise" ->
  if truthy (stripe_customer_id (user st)) then
    create_subscription env tier st =
      (Raise (ValueError ("Invalid subscription tier: " ++ tier)), st)
  else
    calls (snd (create_subscription env tier st)) =
      (calls st ++ [CustomerCreate (email (user st)) (id (user st))])%list
    /\ match customer_create env (email (user st)) (id (user st)) with
       | Done customer_id =>
           fst (create_subscription env tier st) =
             Raise (ValueError ("Invalid subscription tier: " ++ tier))
           /\ stripe_customer_id (user (snd (create_subscription env tier st)))
              = Some customer_id
       | StripeError _ =>
           fst (create_subscription env tier st) =
             Raise (HTTPException 400 "Failed to create billing account")
           /\ user (snd (create_subscription env tier st)) = user st
       end.
Proof.
  intros H1 H2 H3. unfold create_subscription.
  rewrite (price_ids_unknown tier H1 H2 H3). repeat progress unmonad.
  destruct (truthy (stripe_customer_id (user st))); simpl.
  - by destruct st.
  - destruct (customer_create env (email (user st)) (id (user st)));
      simpl; by repeat split.
Qed.

Lemma invalid_tier_after_customer_witness :
  calls (snd (create_subscription stub_env "free" new_user)) =
    (calls new_user ++ [CustomerCreate "a@example.com" 1])%list
  /\ fst (create_subscription stub_env "free" new_user) =
       Raise (ValueError "Invalid subscription tier: free")
     /\ stripe_customer_id (user (snd (create_subscription stub_env "free" new_user)))
        = Some "cus_1".
Proof.
  refine (invalid_tier_after_customer stub_env "free" new_user _ _ _);
    discriminate.
Defined.

(** A subscription is created for the three known tiers only, at the price
    of the tier, for the customer of the user, who has one when the method
    returns; the request for it is the last one sent. *)
Theorem subscription_is_for_known_tier env tier st sub st' :
  create_subscription env tier st = (Ok sub, st') ->
  exists customer price,
    price_ids !! tier = Some price
    /\ (tier = "basic" \/ tier = "pro" \/ tier = "enterprise")
    /\ stripe_customer_id (user st') = Some customer
    /\ subscription_create env customer price = Done sub
    /\ last (calls st') = Some (SubscriptionCreate customer price).
Proof.
  unfold create_subscription. intros H.
  assert (Hknown : forall p, price_ids !! tier = Some p ->
            tier = "basic" \/ tier = "pro" \/ tier = "enterprise").
  { intros p Hp.
    destruct (decide (tier = "basic")); [by left|].
    destruct (decide (tier = "pro")); [right; by left|].
    destruct (decide (tier = "enterprise")); [right; by right|].
    by rewrite price_ids_unknown in Hp. }
  destruct (price_ids !! tier) as [price|] eqn:Hprice;
    [|repeat progress unmonad; simpl in H; by repeat (case_match; simplify_eq/=)].
  repeat progress unmonad. unfold truthy in H.
  repeat (case_match; simplify_eq/=);
    eexists _, price; repeat split; eauto; by rewrite last_snoc.
Qed.

Lemma subscription_is_for_known_tier_witness :
  exists customer price,
    price_ids !! "pro" = Some price
    /\ ("pro" = "basic" \/ "pro" = "pro" \/ "pro" = "enterprise")
    /\ stripe_customer_id
         (user (snd (create_subscription stub_env "pro" new_user))) = Some customer
    /\ subscription_create stub_env customer price = Done ("sub_1", "secret_1")
    /\ last (calls (snd (create_subscription stub_env "pro" new_user)))
       = Some (SubscriptionCreate customer price).
Proof.
  refine (subscription_is_for_known_tier stub_env "pro" new_user
            ("sub_1", "secret_1")
            (snd (create_subscription stub_env "pro" new_user)) _).
  vm_compute. reflexivity.
Defined.

(** [cancel_subscription] never raises: an error of Stripe is logged and
    answered [False]. It never changes the user. It answers [True] only
    after asking Stripe to cancel one subscription, the first active one of
    the customer, and for a user without a customer it answers [False]
    without a request. *)
Theorem cancel_subscription_outcome env st :
  exists b,
    fst (cancel_subscription env st) = Ok b
    /\ user (snd (cancel_subscription env st)) = user st
    /\ (truthy (stripe_customer_id (user st)) = false ->
        b = false /\ snd (cancel_subscription env st) = st)
    /\ (b = true ->
        exists customer subscriptions sub,
          stripe_customer_id (user st) = Some customer
          /\ subscription_list env customer = Done subscriptions
          /\ List.find (fun sub => bool_decide (status sub = "active"))
               subscriptions = Some sub
          /\ subscription_modify env (sub_id sub) = Done tt
          /\ calls (snd (cancel_subscription env st)) =
               (calls st ++ [SubscriptionList customer;
                             SubscriptionModify (sub_id sub)])%list).
Proof.
  unfold cancel_subscription. repeat progress unmonad.
  destruct (stripe_customer_id (user st)) as [customer|] eqn:Hc; simpl;
    [|exists false; by repeat split].
  unfold truthy. case_decide; simpl; [exists false; by repeat split|].
  destruct (subscription_list env customer) as [subs|e] eqn:Hlist; simpl;
    [|exists false; by repeat split].
  destruct (List.find _ subs) as [sub|] eqn:Hfind; simpl;
    [|exists false; by repeat split].
  destruct (subscription_modify env (sub_id sub)) as [[]|e] eqn:Hmod; simpl;
    [|exists false; by repeat split].
  exists true. repeat split; try done.
  intros _. exists customer, subs, sub. rewrite <- app_assoc. by repeat split.
Qed.

End BillingFacts.
